(** * YouDecide: mood detection and song recommendation

    A shallow embedding of the mood pipeline of the server:
    - [app/recommender/mood_recommender.py]: the mood filter over the
      audio-feature table, the sampling step and the construction of
      song descriptors with their resolved link;
    - [app/services/mood_service.py]: the lazily built classifier, the
      fallback crop and the choice of the label;
    - [app/routers/mood.py]: the [detect_mood] handler.

    Python [str] values are modelled by [string]: the bytes of the UTF-8
    encoding of the text.  [str.strip] removes the whitespace code points
    of Python (those of ASCII and U+0085, U+00A0, U+1680, U+2000-U+200A,
    U+2028, U+2029, U+202F, U+205F, U+3000) in their encoded form;
    [urllib.parse.quote_plus] works on these very bytes; [str.lower] is
    its behaviour on ASCII letters, which decides every comparison with
    a label.  Columns of type float64 are binary64 floats ([PrimFloat]),
    so the thresholds [0.6], [0.4], [0.5] and [0.8] are the very doubles
    the Python literals denote. *)

From Stdlib Require Import List String Ascii Bool Arith ZArith NArith QArith Lia.
From Stdlib Require Import Floats.
From Stdlib Require Import Permutation Sorted Orders Mergesort.
Import ListNotations.

#[local] Set Warnings "-inexact-float".

Local Close Scope Q_scope.
Local Open Scope nat_scope.
Local Open Scope list_scope.
Local Open Scope string_scope.

(** ** Python strings *)

Module PyStr.

(** [c.lower()] on one ASCII character: ['A'..'Z'] is moved by 32. *)
Definition lower_char (c : ascii) : ascii :=
  let n := nat_of_ascii c in
  if (65 <=? n)%nat && (n <=? 90)%nat then ascii_of_nat (n + 32) else c.

(** [s.lower()] *)
Fixpoint lower (s : string) : string :=
  match s with
  | EmptyString => EmptyString
  | String c s' => String (lower_char c) (lower s')
  end.

(** [c.isspace()] for a character of one byte: TAB, LF, VT, FF, CR, FS,
    GS, RS, US, SPACE. *)
Definition isspace (c : ascii) : bool :=
  let n := nat_of_ascii c in
  ((9 <=? n)%nat && (n <=? 13)%nat)
  || ((28 <=? n)%nat && (n <=? 32)%nat).

(** The whitespace of two bytes: U+0085 and U+00A0. *)
Definition isspace2 (a b : ascii) : bool :=
  let x := nat_of_ascii a in
  let y := nat_of_ascii b in
  (x =? 194)%nat && ((y =? 133)%nat || (y =? 160)%nat).

(** The whitespace of three bytes: U+1680, U+2000-U+200A, U+2028, U+2029,
    U+202F, U+205F and U+3000. *)
Definition isspace3 (a b c : ascii) : bool :=
  let x := nat_of_ascii a in
  let y := nat_of_ascii b in
  let z := nat_of_ascii c in
  ((x =? 225)%nat && (y =? 154)%nat && (z =? 128)%nat)
  || ((x =? 226)%nat && (y =? 128)%nat
      && (((128 <=? z)%nat && (z <=? 138)%nat)
          || (z =? 168)%nat || (z =? 169)%nat || (z =? 175)%nat))
  || ((x =? 226)%nat && (y =? 129)%nat && (z =? 159)%nat)
  || ((x =? 227)%nat && (y =? 128)%nat && (z =? 128)%nat).

(** [s.lstrip()] *)
Fixpoint lstrip (s : string) : string :=
  match s with
  | EmptyString => EmptyString
  | String a s1 =>
      if isspace a then lstrip s1
      else
        match s1 with
        | EmptyString => s
        | String b s2 =>
            if isspace2 a b then lstrip s2
            else
              match s2 with
              | EmptyString => s
              | String c s3 => if isspace3 a b c then lstrip s3 else s
              end
        end
  end.

(** [s.rstrip()]: the text is cut where what is left is whitespace only. *)
Fixpoint rstrip (s : string) : string :=
  match s with
  | EmptyString => EmptyString
  | String c s' =>
      if String.eqb (lstrip s) EmptyString then EmptyString
      else String c (rstrip s')
  end.

(** [s.strip()] *)
Definition strip (s : string) : string := rstrip (lstrip s).

(** [s.startswith(p)] *)
Definition startswith (s p : string) : bool := String.prefix p s.

(** [s.split(sep)] for a non-empty separator: a scan from the left,
    matches do not overlap.  [skip] counts the characters of a match
    still to be consumed, [cur] is the current piece. *)
Fixpoint split_go (sep : string) (skip : nat) (cur : string) (s : string)
  : list string :=
  match s with
  | EmptyString => [cur]
  | String c s' =>
      match skip with
      | S k => split_go sep k cur s'
      | O =>
          if String.prefix sep s
          then cur :: split_go sep (String.length sep - 1) EmptyString s'
          else split_go sep 0 (cur ++ String c EmptyString) s'
      end
  end.

Definition split (s sep : string) : list string := split_go sep 0 EmptyString s.

(** [parts[-1]] of a list that [split] returned (it is never empty). *)
Definition last_part (parts : list string) : string := List.last parts EmptyString.

(** *** [urllib.parse.quote_plus] *)

Definition hex_digit (n : nat) : ascii :=
  if (n <? 10)%nat then ascii_of_nat (48 + n) else ascii_of_nat (55 + n).

(** Characters that [quote] never escapes: letters, digits and [_.-~]. *)
Definition always_safe (c : ascii) : bool :=
  let n := nat_of_ascii c in
  ((65 <=? n)%nat && (n <=? 90)%nat)
  || ((97 <=? n)%nat && (n <=? 122)%nat)
  || ((48 <=? n)%nat && (n <=? 57)%nat)
  || (n =? 95)%nat || (n =? 46)%nat || (n =? 45)%nat || (n =? 126)%nat.

Definition quote_char (c : ascii) : string :=
  if always_safe c then String c EmptyString
  else if Ascii.eqb c " " then "+"
  else let n := nat_of_ascii c in
       String "%" (String (hex_digit (n / 16)) (String (hex_digit (n mod 16)) EmptyString)).

Fixpoint quote_plus (s : string) : string :=
  match s with
  | EmptyString => EmptyString
  | String c s' => quote_char c ++ quote_plus s'
  end.

(** Case-insensitive comparison, as the specification words it: two
    strings match when they have the same length and agree position by
    position up to the case of ASCII letters. *)
Definition same_letter (c d : ascii) : bool :=
  Ascii.eqb c d
  || (let n := nat_of_ascii c in let m := nat_of_ascii d in
      ((65 <=? n)%nat && (n <=? 90)%nat && (m =? n + 32)%nat)
      || ((65 <=? m)%nat && (m <=? 90)%nat && (n =? m + 32)%nat)).

Fixpoint eq_nocase (a b : string) : bool :=
  match a, b with
  | EmptyString, EmptyString => true
  | String c a', String d b' => same_letter c d && eq_nocase a' b'
  | _, _ => false
  end.

End PyStr.

(** ** Cells of the feature table

    A cell read by [row.get] is a Python object: a [str], or anything else
    (the float [nan] of a missing value, a number, [None]).  For the code
    below only three observations of an object matter: whether it is a
    [str], its truth value, and its [str()] text. *)

Inductive cell : Type :=
| Str (s : string)
| Other (truth : bool) (text : string).

(** The float [nan] pandas stores for a missing value: truthy, printed ["nan"]. *)
Definition NaN : cell := Other true "nan".
(** [None], the default of [row.get(key)] for an absent column. *)
Definition PyNone : cell := Other false "None".

(** [bool(x)] *)
Definition truthy (x : cell) : bool :=
  match x with
  | Str s => negb (String.eqb s "")
  | Other t _ => t
  end.

(** [x or y] *)
Definition py_or (x y : cell) : cell := if truthy x then x else y.

(** [str(x)], also the text an f-string inserts for [{x}]. *)
Definition str (x : cell) : string :=
  match x with
  | Str s => s
  | Other _ t => t
  end.

(** A row of [genres.csv].  A text column that the file does not have is
    [None] here, so that [row.get] can return its default. *)
Record Row : Type := mkRow {
  col_id : option cell;
  col_song_name : option cell;
  col_title : option cell;
  col_genre : option cell;
  col_artist : option cell;
  col_uri : option cell;
  valence : float;
  energy : float;
  acousticness : float
}.

(** [row.get(key)] and [row.get(key, default)] *)
Definition row_get (c : option cell) (default : cell) : cell :=
  match c with
  | Some v => v
  | None => default
  end.

Definition DataFrame : Type := list Row.

(** The [Song] model of the recommender. *)
Record Song : Type := mkSong {
  song_id : string;
  song_name : string;
  song_genre : option string;
  song_uri : option string
}.

(** The four labels of [_EMOTION_DICT]. *)
Inductive MoodLabel : Type := Angry | Sad | Happy | Calm.

Definition label_name (l : MoodLabel) : string :=
  match l with
  | Angry => "Angry"
  | Sad => "Sad"
  | Happy => "Happy"
  | Calm => "Calm"
  end.

(** ** Exceptions

    A raised Python exception: its class and its message ([str(exc)]). *)

Record exn : Type := mkExn { exn_class : string; exn_msg : string }.

Definition ValueError (msg : string) : exn := mkExn "ValueError" msg.
Definition FileNotFoundError (msg : string) : exn := mkExn "FileNotFoundError" msg.

Inductive result (A : Type) : Type :=
| Ok (a : A)
| Raise (e : exn).
Arguments Ok {A} a.
Arguments Raise {A} e.

Definition bind {A B : Type} (r : result A) (k : A -> result B) : result B :=
  match r with
  | Ok a => k a
  | Raise e => Raise e
  end.

Declare Scope py_scope.
Delimit Scope py_scope with py.
Notation "x <- r ;; k" := (bind r (fun x => k))
  (at level 61, r at next level, right associativity) : py_scope.

(** ** The random source of [DataFrame.sample]

    With [random_state=None], [replace=False] and no weights, pandas asks
    numpy for [choice(len, size=n, replace=False)]: [n] pairwise distinct
    positions below [len], every such draw being equally likely.  A random
    source is one draw for each request; the theorems quantify over all
    sources, that is over every outcome the call can have. *)

Record RandomSource : Type := mkRandomSource {
  choice : nat -> nat -> list nat;
  choice_size : forall len n, n <= len -> List.length (choice len n) = n;
  choice_distinct : forall len n, n <= len -> NoDup (choice len n);
  choice_range : forall len n, n <= len -> Forall (fun i => i < len) (choice len n)
}.

(** The sample space of [choice(len, size=n, replace=False)]: numpy
    takes the first [n] entries of a random permutation of the
    positions below [len], so every arrangement of [n] distinct
    positions is drawn with the same probability.  [arrangements pool n]
    lists each arrangement of [n] distinct entries of [pool] once. *)
Fixpoint arrangements (pool : list nat) (n : nat) : list (list nat) :=
  match n with
  | 0 => [[]]
  | S n' =>
      List.flat_map
        (fun i => List.map (cons i) (arrangements (List.remove Nat.eq_dec i pool) n'))
        pool
  end.

Definition draws (len n : nat) : list (list nat) := arrangements (List.seq 0 len) n.

(** [df.take(positions)] *)
Definition take (positions : list nat) (df : DataFrame) : DataFrame :=
  List.flat_map
    (fun i => match List.nth_error df i with Some row => [row] | None => [] end)
    positions.

(** [df.sample(n=n, random_state=None)] *)
Definition sample (rs : RandomSource) (n : Z) (df : DataFrame) : result DataFrame :=
  if (n <? 0)%Z then
    Raise (ValueError "A negative number of rows requested. Please provide `n` >= 0.")
  else if (Z.of_nat (List.length df) <? n)%Z then
    Raise (ValueError "Cannot take a larger sample than population when 'replace=False'")
  else Ok (take (choice rs (List.length df) (Z.to_nat n)) df).

(** ** The mood filter *)

Section Recommender.

(** The module-level table [_df], read once at import time. *)
Variable _df : DataFrame.

(** [_df[mask]]: boolean-mask selection keeps the selected rows in order. *)
Definition select (mask : Row -> bool) (df : DataFrame) : DataFrame :=
  List.filter mask df.

(** Python's [x >= t] and [x <= t] on floats. *)
Definition ge (x t : float) : bool := PrimFloat.leb t x.
Definition le (x t : float) : bool := PrimFloat.leb x t.

Definition _filter_df_for_mood (mood : string) : DataFrame :=
  let mood_lower := PyStr.lower mood in
  if String.eqb mood_lower "happy" then
    select (fun r => ge (valence r) 0.6%float) _df
  else if String.eqb mood_lower "sad" then
    select (fun r => le (valence r) 0.4%float) _df
  else if String.eqb mood_lower "calm" then
    select (fun r => ge (acousticness r) 0.5%float && le (energy r) 0.6%float) _df
  else if String.eqb mood_lower "angry" then
    select (fun r => ge (energy r) 0.8%float) _df
  else _df.

(** The filtering policy in the specification's words: the label is
    recognised up to case, and each label has its threshold. *)
Definition recognise (mood : string) : option MoodLabel :=
  List.find (fun l => PyStr.eq_nocase mood (label_name l)) [Happy; Sad; Calm; Angry].

(** The threshold test of a label. *)
Definition passes (l : MoodLabel) (r : Row) : bool :=
  match l with
  | Happy => ge (valence r) 0.6%float
  | Sad => le (valence r) 0.4%float
  | Calm => ge (acousticness r) 0.5%float && le (energy r) 0.6%float
  | Angry => ge (energy r) 0.8%float
  end.

Definition policy_rows (l : option MoodLabel) : DataFrame :=
  match l with
  | Some l => select (passes l) _df
  | None => _df
  end.

(** *** Building the song descriptors *)

(** [str(raw_name).strip()] with
    [raw_name = row.get("song_name") or row.get("title") or ""]. *)
Definition display_name (row : Row) : string :=
  let raw_name :=
    py_or (py_or (row_get (col_song_name row) PyNone)
                 (row_get (col_title row) PyNone))
          (Str "") in
  PyStr.strip (str raw_name).

(** The text of the name before it is trimmed: [str(raw_name)]. *)
Definition name_text (row : Row) : string :=
  str (py_or (py_or (row_get (col_song_name row) PyNone)
                    (row_get (col_title row) PyNone))
             (Str "")).

(** A row has a display name when the loop does not skip it. *)
Definition has_name (row : Row) : bool := negb (String.eqb (display_name row) "").

(** [str(raw).strip() if isinstance(raw, str) else ""] *)
Definition stripped_if_str (raw : cell) : string :=
  match raw with
  | Str s => PyStr.strip s
  | Other _ _ => ""
  end.

(** Lines 89-100: the link of a row whose display name is [name]. *)
Definition resolve_uri (row : Row) (name : string) : string :=
  let raw_uri := row_get (col_uri row) PyNone in
  let uri := stripped_if_str raw_uri in
  let uri :=
    if PyStr.startswith uri "spotify:track:" then
      let spotify_id := PyStr.last_part (PyStr.split uri "spotify:track:") in
      "https://open.spotify.com/track/" ++ spotify_id
    else uri in
  if String.eqb uri ""
     || negb (PyStr.startswith uri "http://" || PyStr.startswith uri "https://")
  then
    let search_query :=
      PyStr.quote_plus
        (PyStr.strip (name ++ " " ++ str (row_get (col_artist row) (Str "")))) in
    "https://www.youtube.com/results?search_query=" ++ search_query
  else uri.

(** Names for the tests and the three outcomes of [resolve_uri]. *)
Definition is_http (s : string) : bool :=
  PyStr.startswith s "http://" || PyStr.startswith s "https://".

Definition spotify_web (t : string) : string :=
  "https://open.spotify.com/track/"
  ++ PyStr.last_part (PyStr.split t "spotify:track:").

Definition youtube_search (row : Row) (name : string) : string :=
  "https://www.youtube.com/results?search_query="
  ++ PyStr.quote_plus
       (PyStr.strip (name ++ " " ++ str (row_get (col_artist row) (Str "")))).

(** The raw [uri] cell as the code reads it: trimmed, and empty when the
    cell holds no [str]. *)
Definition trimmed_uri (row : Row) : string :=
  stripped_if_str (row_get (col_uri row) PyNone).

(** [x or None] for a string. *)
Definition or_None (s : string) : option string :=
  if String.eqb s "" then None else Some s.

(** The body of the loop for one row: [None] is the [continue] of a row
    without a display name, [Some] the appended [Song]. *)
Definition song_of_row (row : Row) : option Song :=
  let name := display_name row in
  if String.eqb name "" then None
  else
    let song_id := str (py_or (row_get (col_id row) PyNone) (Str "")) in
    let uri := resolve_uri row name in
    let genre :=
      match row_get (col_genre row) PyNone with
      | Str s => or_None (PyStr.strip s)
      | Other _ _ => None
      end in
    Some (mkSong song_id name genre (or_None uri)).

(** The loop [for _, row in subset.iterrows()]. *)
Fixpoint build_songs (subset : DataFrame) : list Song :=
  match subset with
  | [] => []
  | row :: rest =>
      match song_of_row row with
      | None => build_songs rest
      | Some song => song :: build_songs rest
      end
  end.

(** [subset.empty] *)
Definition empty (df : DataFrame) : bool :=
  match df with
  | [] => true
  | _ :: _ => false
  end.

(** Lines 71-74: the filtered rows, or the whole table when none is left. *)
Definition candidates (mood : string) : DataFrame :=
  let subset := _filter_df_for_mood mood in
  if empty subset then _df else subset.

(** Lines 71-77: the rows the loop runs over. *)
Definition chosen_rows (rs : RandomSource) (mood : string) (limit : Z)
  : result DataFrame :=
  let subset := candidates mood in
  if (Z.of_nat (List.length subset) >? limit)%Z
  then sample rs limit subset
  else Ok subset.

Definition recommend_songs_for_mood (rs : RandomSource) (mood : string) (limit : Z)
  : result (list Song) :=
  (subset <- chosen_rows rs mood limit ;;
   Ok (build_songs subset))%py.

(** The default [limit: int = 10]. *)
Definition default_limit : Z := 10.

End Recommender.

(** ** Images and the region of interest *)

(** A single-channel image: rows of 8-bit intensities. *)
Definition GrayImage : Type := list (list Z).

(** [img.shape] is [(h, w)]. *)
Definition shape (img : GrayImage) : nat * nat :=
  (List.length img, List.length (List.hd [] img)).

(** [l[lo:hi]] for [0 <= lo <= hi]. *)
Definition slice {A : Type} (lo hi : nat) (l : list A) : list A :=
  List.firstn (hi - lo) (List.skipn lo l).

(** [img[y0:y1, x0:x1]] *)
Definition crop (img : GrayImage) (y0 y1 x0 x1 : nat) : GrayImage :=
  List.map (slice x0 x1) (slice y0 y1 img).

(** A rectangle [(x, y, w, h)] returned by [detectMultiScale]. *)
Record Rect : Type := mkRect { rect_x : nat; rect_y : nat; rect_w : nat; rect_h : nat }.

(** Lines 99-108: the region handed to the classifier. *)
Definition extract_roi (gray : GrayImage) (faces : list Rect) : GrayImage :=
  match faces with
  | [] =>
      let '(h, w) := shape gray in
      let size := Nat.min h w in
      let y0 := (h - size) / 2 in
      let x0 := (w - size) / 2 in
      crop gray y0 (y0 + size) x0 (x0 + size)
  | face :: _ =>
      let '(x, y, w, h) := (rect_x face, rect_y face, rect_w face, rect_h face) in
      crop gray y (y + h) x (x + w)
  end.

(** The pixel at row [i], column [j]. *)
Definition pixel (img : GrayImage) (i j : nat) : option Z :=
  match List.nth_error img i with
  | Some row => List.nth_error row j
  | None => None
  end.

(** ** The label of a prediction *)

(** A value of the output of the last layer,
    [Dense(4, activation="softmax")]: a float32 number, which is a
    rational, or nan (what softmax gives when its input overflows). *)
Inductive float32 : Type :=
| nan32
| num32 (q : Q).

(** C's [x <= y] on floats: false as soon as one side is nan. *)
Definition le32 (x y : float32) : bool :=
  match x, y with
  | num32 a, num32 b => Qle_bool a b
  | _, _ => false
  end.

Definition isnan32 (x : float32) : bool :=
  match x with
  | nan32 => true
  | num32 _ => false
  end.

(** The four values of one prediction, by index. *)
Record Prediction : Type :=
  mkPrediction { p0 : float32; p1 : float32; p2 : float32; p3 : float32 }.

Definition flatten (p : Prediction) : list float32 := [p0 p; p1 p; p2 p; p3 p].

(** [np.argmax] on floats, as numpy's loop runs: the value in hand is
    replaced by the next one unless [next <= value]; a nan ends the scan
    and is the answer. *)
Fixpoint argmax_from (best_i : nat) (best : float32) (i : nat) (l : list float32)
  : nat :=
  match l with
  | [] => best_i
  | x :: rest =>
      if le32 x best then argmax_from best_i best (S i) rest
      else if isnan32 x then i
      else argmax_from i x (S i) rest
  end.

Definition argmax (l : list float32) : nat :=
  match l with
  | [] => 0
  | x :: rest => if isnan32 x then 0 else argmax_from 0 x 1 rest
  end.

Definition _EMOTION_DICT : list (nat * string) :=
  [(0, "Angry"); (1, "Sad"); (2, "Happy"); (3, "Calm")].

(** The labels in the order of the keys of [_EMOTION_DICT]. *)
Definition labels : list MoodLabel := [Angry; Sad; Happy; Calm].

(** [d.get(key, default)] *)
Fixpoint dict_get (d : list (nat * string)) (key : nat) (default : string) : string :=
  match d with
  | [] => default
  | (k, v) :: rest => if Nat.eqb k key then v else dict_get rest key default
  end.

(** ** The classifier service *)

(** What the service needs of OpenCV and Keras.  [resize] and [predict]
    may raise; [imdecode] returns [None] for bytes that are no image. *)
Record Libs : Type := mkLibs {
  Frame : Type;
  Sequential : Type;
  imdecode : list Byte.byte -> option Frame;
  cvtColor : Frame -> GrayImage;
  detectMultiScale : GrayImage -> list Rect;
  resize : GrayImage -> result GrayImage;
  predict : Sequential -> GrayImage -> result Prediction
}.

Section Service.

Variable libs : Libs.

(** The text of [WEIGHTS_PATH]. *)
Variable WEIGHTS_PATH : string.

(** The module state of [mood_service]: the global [_model], and how many
    times [_build_model] has been entered since the process started. *)
Record Process : Type := mkProcess {
  _model : option (Sequential libs);
  build_calls : nat
}.

Definition fresh_process : Process := mkProcess None 0.

(** [artifact] is the weight file as the call finds it: [None] when
    [WEIGHTS_PATH] does not exist, otherwise the network with these
    weights loaded. *)
Definition weights_not_found : exn :=
  FileNotFoundError
    ("Emotion model weights not found at " ++ WEIGHTS_PATH ++ ". "
     ++ "Make sure the 'Mood-Based-Song-Recommender-main' project (with the "
     ++ "'Model/model_weights_training_optimal.h5' file) exists under the "
     ++ "project root (EDI@).").

Definition _build_model (artifact : option (Sequential libs))
  : result (Sequential libs) :=
  match artifact with
  | None => Raise weights_not_found
  | Some model => Ok model
  end.

Definition _get_model (artifact : option (Sequential libs)) (st : Process)
  : result (Sequential libs) * Process :=
  match _model st with
  | None =>
      match _build_model artifact with
      | Ok model => (Ok model, mkProcess (Some model) (S (build_calls st)))
      | Raise e => (Raise e, mkProcess None (S (build_calls st)))
      end
  | Some model => (Ok model, st)
  end.

Definition is_empty_bytes (b : list Byte.byte) : bool :=
  match b with
  | [] => true
  | _ :: _ => false
  end.

Definition predict_mood_from_image_bytes
  (artifact : option (Sequential libs)) (image_bytes : list Byte.byte) (st : Process)
  : result string * Process :=
  if is_empty_bytes image_bytes then (Raise (ValueError "Empty image bytes."), st)
  else
    match imdecode libs image_bytes with
    | None => (Raise (ValueError "Could not decode image data."), st)
    | Some frame =>
        let gray := cvtColor libs frame in
        let faces := detectMultiScale libs gray in
        let roi_gray := extract_roi gray faces in
        match resize libs roi_gray with
        | Raise e => (Raise e, st)
        | Ok roi_resized =>
            let cropped_img := roi_resized in
            match _get_model artifact st with
            | (Raise e, st') => (Raise e, st')
            | (Ok model, st') =>
                match predict libs model cropped_img with
                | Raise e => (Raise e, st')
                | Ok prediction =>
                    let maxindex := argmax (flatten prediction) in
                    (Ok (dict_get _EMOTION_DICT maxindex "Calm"), st')
                end
            end
        end
    end.

(** A request gets as far as the model when its bytes decode and the
    region is resized. *)
Definition reaches_model (image_bytes : list Byte.byte) (roi_resized : GrayImage) : Prop :=
  is_empty_bytes image_bytes = false
  /\ exists frame,
      imdecode libs image_bytes = Some frame
      /\ resize libs (extract_roi (cvtColor libs frame)
                                  (detectMultiScale libs (cvtColor libs frame)))
         = Ok roi_resized.

(** ** The [detect_mood] handler *)

Variable _df : DataFrame.

(** The document stored in [mood_events]. *)
Record MoodDoc : Type := mkMoodDoc {
  doc_userId : string;
  doc_mood : string;
  doc_created_at : Z;
  doc_songs : list Song
}.

Record Server : Type := mkServer {
  process : Process;
  mood_events : list MoodDoc
}.

(** What the caller receives: an [HTTPException], the stored event with
    the position it was inserted at, or an exception nobody caught. *)
Inductive Response : Type :=
| HTTPException (status_code : nat) (detail : string)
| Created (inserted_id : nat) (doc : MoodDoc)
| Unhandled (e : exn).

Definition detect_mood
  (artifact : option (Sequential libs)) (rs : RandomSource) (now : Z)
  (userId : string) (data : list Byte.byte) (srv : Server)
  : Response * Server :=
  if is_empty_bytes data then
    (HTTPException 400 "Uploaded image is empty.", srv)
  else
    match predict_mood_from_image_bytes artifact data (process srv) with
    | (Raise exc, st) =>
        (HTTPException 500 ("Failed to analyze image: " ++ exn_msg exc),
         mkServer st (mood_events srv))
    | (Ok mood_label, st) =>
        match recommend_songs_for_mood _df rs mood_label default_limit with
        | Raise e => (Unhandled e, mkServer st (mood_events srv))
        | Ok songs_models =>
            let doc := mkMoodDoc userId mood_label now songs_models in
            (Created (List.length (mood_events srv)) doc,
             mkServer st (mood_events srv ++ [doc])%list)
        end
    end.

(** ** Requests served one after the other *)

(** One process serves the requests in turn; each request comes with the
    weight file as it is at that moment. *)
Fixpoint serve (requests : list (option (Sequential libs) * list Byte.byte))
         (st : Process) : list (result string) * Process :=
  match requests with
  | [] => ([], st)
  | (artifact, image_bytes) :: rest =>
      let (r, st') := predict_mood_from_image_bytes artifact image_bytes st in
      let (rs, st'') := serve rest st' in
      (r :: rs, st'')
  end.

(** ** The mood history *)

(** [SongPublic] and [MoodEventPublic] of [models/mood.py].  The text of
    [_id] stands for the position the document was inserted at. *)
Record SongPublic : Type := mkSongPublic {
  public_id : string;
  public_name : string;
  public_genre : option string;
  public_uri : option string
}.

Record MoodEventPublic : Type := mkMoodEventPublic {
  event_id : nat;
  event_userId : string;
  event_mood : string;
  event_created_at : Z;
  event_songs : list SongPublic
}.

(** A [SongPublic] made of the fields of a stored [song.model_dump()]. *)
Definition to_public (song : Song) : SongPublic :=
  mkSongPublic (song_id song) (song_name song) (song_genre song) (song_uri song).

Definition _serialize_mood_event (doc_id : nat) (doc : MoodDoc) : MoodEventPublic :=
  mkMoodEventPublic doc_id (doc_userId doc) (doc_mood doc) (doc_created_at doc)
                    (List.map to_public (doc_songs doc)).

(** The body of the answer of [detect_mood]: the serialized event. *)
Definition response_body (r : Response) : option MoodEventPublic :=
  match r with
  | Created inserted_id doc => Some (_serialize_mood_event inserted_id doc)
  | _ => None
  end.

(** The documents of a collection with their [_id]. *)
Definition indexed (docs : list MoodDoc) : list (nat * MoodDoc) :=
  List.combine (List.seq 0 (List.length docs)) docs.

(** [cursor.sort("created_at", -1)]: the database returns the matching
    documents, each once, the most recent first; the order of documents
    with the same time is its own choice. *)
Record Mongo : Type := mkMongo {
  sort_desc : list (nat * MoodDoc) -> list (nat * MoodDoc);
  sort_desc_perm : forall l, Permutation l (sort_desc l);
  sort_desc_sorted :
    forall l,
      StronglySorted
        (fun a b => (doc_created_at (snd b) <= doc_created_at (snd a))%Z)
        (sort_desc l)
}.


(** [timedelta(days=d)], with times counted in milliseconds. *)
Definition timedelta_days (d : Z) : Z := (d * 86400000)%Z.

(** The query [{"userId": userId, "created_at": {"$gte": cutoff}}], the
    second part only when there is a cutoff. *)
Definition matches (userId : string) (cutoff : option Z) (doc : MoodDoc) : bool :=
  String.eqb (doc_userId doc) userId
  && match cutoff with
     | Some c => (c <=? doc_created_at doc)%Z
     | None => true
     end.

Definition find (userId : string) (cutoff : option Z) (docs : list MoodDoc)
  : list (nat * MoodDoc) :=
  List.filter (fun d => matches userId cutoff (snd d)) (indexed docs).

(** What [list_mood_history] answers: the validation error of
    [Query(ge=1, le=365)], or the events. *)
Inductive HistoryResponse : Type :=
| Unprocessable
| History (events : list MoodEventPublic).

(** [days] when the request does not give it: [Query(default=7, ...)]. *)
Definition default_days : option Z := Some 7%Z.

Definition list_mood_history
  (mongo : Mongo) (now : Z) (userId : string) (days : option Z) (srv : Server)
  : HistoryResponse :=
  match days with
  | Some d =>
      if (d <? 1)%Z || (365 <? d)%Z then Unprocessable
      else
        let cutoff := (now - timedelta_days d)%Z in
        let docs := sort_desc mongo (find userId (Some cutoff) (mood_events srv)) in
        History (List.map (fun d => _serialize_mood_event (fst d) (snd d)) docs)
  | None =>
      let docs := sort_desc mongo (find userId None (mood_events srv)) in
      History (List.map (fun d => _serialize_mood_event (fst d) (snd d)) docs)
  end.

End Service.

(** ** Shapes of strings *)

Module PyShape.

(** The code points for which Python's [str.isspace] holds. *)
Definition whitespace_code_points : list N :=
  [9; 10; 11; 12; 13; 28; 29; 30; 31; 32; 133; 160; 5760;
   8192; 8193; 8194; 8195; 8196; 8197; 8198; 8199; 8200; 8201; 8202;
   8232; 8233; 8239; 8287; 12288]%N.

Definition byte_of (n : N) : ascii := ascii_of_N n.

(** The UTF-8 encoding of a code point. *)
Definition utf8 (cp : N) : string :=
  if (cp <? 128)%N then String (byte_of cp) EmptyString
  else if (cp <? 2048)%N then
    String (byte_of (192 + cp / 64))
      (String (byte_of (128 + cp mod 64)) EmptyString)
  else if (cp <? 65536)%N then
    String (byte_of (224 + cp / 4096))
      (String (byte_of (128 + (cp / 64) mod 64))
         (String (byte_of (128 + cp mod 64)) EmptyString))
  else
    String (byte_of (240 + cp / 262144))
      (String (byte_of (128 + (cp / 4096) mod 64))
         (String (byte_of (128 + (cp / 64) mod 64))
            (String (byte_of (128 + cp mod 64)) EmptyString))).

(** The whitespace characters as they stand in a text. *)
Definition whitespace : list string := List.map utf8 whitespace_code_points.

(** [s] starts with [w]; [s] ends with [w]. *)
Fixpoint starts_with (w s : string) : bool :=
  match w with
  | EmptyString => true
  | String a w' =>
      match s with
      | EmptyString => false
      | String b s' => Ascii.eqb a b && starts_with w' s'
      end
  end.

Fixpoint ends_with (w s : string) : bool :=
  String.eqb w s
  || match s with
     | EmptyString => false
     | String _ s' => ends_with w s'
     end.

(** The text starts, or ends, with a whitespace character. *)
Definition starts_with_space (s : string) : bool :=
  List.existsb (fun w => starts_with w s) whitespace.

Definition ends_with_space (s : string) : bool :=
  List.existsb (fun w => ends_with w s) whitespace.

(** A blank text: whitespace characters and nothing else. *)
Inductive Blank : string -> Prop :=
| Blank_empty : Blank EmptyString
| Blank_space (w rest : string) :
    In w whitespace -> Blank rest -> Blank (w ++ rest).

(** An ASCII character that is not whitespace. *)
Definition plain (c : ascii) : bool :=
  negb (PyStr.isspace c) && (nat_of_ascii c <? 128)%nat.

(** Every character of [s] passes [p]. *)
Fixpoint all_chars (p : ascii -> bool) (s : string) : bool :=
  match s with
  | EmptyString => true
  | String c s' => p c && all_chars p s'
  end.

(** [c in s] *)
Fixpoint has_char (c : ascii) (s : string) : bool :=
  match s with
  | EmptyString => false
  | String d s' => Ascii.eqb c d || has_char c s'
  end.

(** What a query string made by [quote_plus] may hold: unreserved
    characters, [+] for a space and [%] before two hexadecimal digits. *)
Definition url_safe (c : ascii) : bool :=
  PyStr.always_safe c || Ascii.eqb c "+" || Ascii.eqb c "%".

End PyShape.

(** * Test data *)

Module Fixtures.

(** The source that always draws the first [n] positions. *)
Lemma first_size (len n : nat) : n <= len -> List.length (List.seq 0 n) = n.
Proof. intros _. apply List.length_seq. Qed.

Lemma first_distinct (len n : nat) : n <= len -> NoDup (List.seq 0 n).
Proof. intros _. apply List.seq_NoDup. Qed.

Lemma first_range (len n : nat) :
  n <= len -> Forall (fun i => i < len) (List.seq 0 n).
Proof.
  intros H. apply List.Forall_forall. intros i Hi.
  apply List.in_seq in Hi. lia.
Qed.

Definition first_positions : RandomSource :=
  mkRandomSource (fun _ n => List.seq 0 n) first_size first_distinct first_range.

(** A row with text in every column but [title]. *)
Definition song_row (id name artist uri : string) (v e a : float) : Row :=
  mkRow (Some (Str id)) (Some (Str name)) None (Some (Str "pop"))
        (Some (Str artist)) (Some (Str uri)) v e a.

Definition sunny : Row := song_row "1" "Sunny Day" "Test Artist" "" 0.9 0.7 0.2.
Definition blank : Row := song_row "2" "   " "Nobody" "spotify:track:XYZ" 0.8 0.7 0.2.
Definition linked : Row :=
  song_row "3" "Walk" "Band" "https://example.com/a " 0.7 0.7 0.2.
Definition gloomy : Row := song_row "4" "Rain" "Band" "spotify:track:ABC123" 0.1 0.3 0.9.

Definition linked_song : Song :=
  mkSong "3" "Walk" (Some "pop") (Some "https://example.com/a").

(** U+00A0, the no-break space, as it stands in a text. *)
Definition nbsp : string := PyShape.utf8 160.

(** A row whose cells are wrapped in no-break spaces. *)
Definition padded : Row :=
  mkRow (Some (Str "8")) (Some (Str (nbsp ++ "Song" ++ nbsp))) None
        (Some (Str nbsp)) (Some (Str "Band"))
        (Some (Str (nbsp ++ "https://example.com/b" ++ nbsp))) 0.9 0.7 0.2.

Definition sunny_song : Song :=
  mkSong "1" "Sunny Day" (Some "pop")
    (Some "https://www.youtube.com/results?search_query=Sunny+Day+Test+Artist").

Definition padded_song : Song :=
  mkSong "8" "Song" None (Some "https://example.com/b").

(** A row whose genre has a no-break space before it and a space after. *)
Definition jazzy : Row :=
  mkRow (Some (Str "9")) (Some (Str "Blue")) None
        (Some (Str (nbsp ++ "jazz" ++ " "))) (Some (Str "Trio"))
        (Some (Str "")) 0.9 0.7 0.2.

Definition jazzy_song : Song :=
  mkSong "9" "Blue" (Some "jazz")
    (Some "https://www.youtube.com/results?search_query=Blue+Trio").

End Fixtures.

Module ServiceFixtures.

(** Stand-ins for OpenCV and Keras: every byte string that does not
    start with a zero byte decodes, the grayscale image is one pixel
    that holds the number of bytes, no face is ever found, and the
    network fails on the pixel value 7 and gives a nan on the value 3. *)
Definition stub_libs : Libs :=
  mkLibs (list Byte.byte) unit
    (fun b => match b with Byte.x00 :: _ => None | _ => Some b end)
    (fun frame => [[Z.of_nat (List.length frame)]])
    (fun _ => [])
    (fun roi => Ok roi)
    (fun _ roi =>
       match roi with
       | [[7%Z]] => Raise (mkExn "InvalidArgumentError" "Graph execution error")
       | [[3%Z]] =>
           Ok (mkPrediction (num32 (9 # 10)) (num32 (1 # 20)) nan32 (num32 (1 # 20)))
       | _ =>
           Ok (mkPrediction (num32 (1 # 10)) (num32 (4 # 10))
                            (num32 (4 # 10)) (num32 (1 # 10)))
       end).

Definition weights_path : string := "/srv/Model/model_weights_training_optimal.h5".

Definition one_byte : list Byte.byte := [Byte.x01].
Definition three_bytes : list Byte.byte := [Byte.x01; Byte.x02; Byte.x03].
Definition seven_bytes : list Byte.byte :=
  [Byte.x01; Byte.x02; Byte.x03; Byte.x04; Byte.x05; Byte.x06; Byte.x07].

Definition fresh_server : Server stub_libs := mkServer stub_libs (fresh_process stub_libs) [].

(** An image 200 wide and 100 high; the pixel of column [j] is [j]. *)
Definition wide_image : GrayImage :=
  List.repeat (List.map Z.of_nat (List.seq 0 200)) 100.

End ServiceFixtures.

Module HistoryFixtures.

(** A database that sorts with the merge sort of the standard library. *)
Module EventOrder <: TotalLeBool.
Definition t : Type := (nat * MoodDoc)%type.
Definition leb (a b : t) : bool :=
  (doc_created_at (snd b) <=? doc_created_at (snd a))%Z.
Lemma leb_total (a b : t) : leb a b = true \/ leb b a = true.
Proof. unfold leb. rewrite !Z.leb_le. lia. Qed.
End EventOrder.

Module EventSort := Sort EventOrder.

Lemma event_sort_sorted (l : list (nat * MoodDoc)) :
  StronglySorted
    (fun a b => (doc_created_at (snd b) <= doc_created_at (snd a))%Z)
    (EventSort.sort l).
Proof.
  assert (H : StronglySorted (fun a b => is_true (EventOrder.leb a b)) (EventSort.sort l)).
  { apply EventSort.StronglySorted_sort.
    intros a b c. unfold is_true, EventOrder.leb. rewrite !Z.leb_le. lia. }
  induction H as [|a l' _ IH Hall]; constructor; [exact IH|].
  eapply List.Forall_impl; [|exact Hall].
  cbn. intros b. unfold is_true, EventOrder.leb. now rewrite Z.leb_le.
Qed.

Definition merge_sort_db : Mongo :=
  mkMongo EventSort.sort EventSort.Permuted_sort event_sort_sorted.

End HistoryFixtures.

(** * Properties *)

(** ** Strings *)

Module PyStrFacts.
Import PyStr.

Lemma ascii_eqb_nat (c d : ascii) :
  Ascii.eqb c d = Nat.eqb (nat_of_ascii c) (nat_of_ascii d).
Proof.
  destruct (Ascii.eqb_spec c d) as [->|Hne].
  - now rewrite Nat.eqb_refl.
  - symmetry. apply Nat.eqb_neq. intro H. apply Hne.
    now rewrite <- (ascii_nat_embedding c), <- (ascii_nat_embedding d), H.
Qed.

Lemma nat_of_lower_char (c : ascii) :
  nat_of_ascii (lower_char c) =
  if ((65 <=? nat_of_ascii c) && (nat_of_ascii c <=? 90))%nat
  then nat_of_ascii c + 32 else nat_of_ascii c.
Proof.
  unfold lower_char.
  destruct ((65 <=? nat_of_ascii c) && (nat_of_ascii c <=? 90))%nat eqn:E; [|reflexivity].
  apply andb_true_iff in E as [_ E]. apply Nat.leb_le in E.
  apply nat_ascii_embedding. lia.
Qed.

Lemma lower_char_same_letter (c d : ascii) :
  Ascii.eqb (lower_char c) (lower_char d) = same_letter c d.
Proof.
  unfold same_letter.
  rewrite !ascii_eqb_nat, !nat_of_lower_char.
  set (n := nat_of_ascii c). set (m := nat_of_ascii d).
  destruct (Nat.leb_spec 65 n), (Nat.leb_spec n 90),
           (Nat.leb_spec 65 m), (Nat.leb_spec m 90); cbn [andb orb];
    repeat match goal with
           | |- context [Nat.eqb ?a ?b] => destruct (Nat.eqb_spec a b)
           end; cbn [andb orb]; try reflexivity; lia.
Qed.

Lemma lower_eqb_nocase (a b : string) :
  String.eqb (lower a) (lower b) = eq_nocase a b.
Proof.
  revert b. induction a as [|c a IH]; intros [|d b]; cbn; try reflexivity.
  rewrite <- lower_char_same_letter, <- IH.
  now destruct (Ascii.eqb (lower_char c) (lower_char d)).
Qed.

End PyStrFacts.

(** ** Trimmed and quoted strings *)

Module PyShapeFacts.
Import PyStr PyShape.

(** *** Appending *)

Lemma append_nil_r (s : string) : s ++ "" = s.
Proof. induction s as [|c s IH]; [reflexivity|]. cbn. now rewrite IH. Qed.

Lemma append_assoc (a b c : string) : (a ++ b) ++ c = a ++ (b ++ c).
Proof. induction a as [|x a IH]; [reflexivity|]. cbn. now rewrite IH. Qed.

Lemma length_append (a b : string) :
  String.length (a ++ b) = String.length a + String.length b.
Proof. induction a as [|x a IH]; [reflexivity|]. cbn. now rewrite IH. Qed.

(** Two ways of cutting one string: one cut is inside a part of the other. *)
Lemma append_eq_append (p x q w : string) :
  p ++ x = q ++ w ->
  (exists m, q = p ++ m /\ x = m ++ w)
  \/ (exists c m, p = q ++ String c m /\ w = String c m ++ x).
Proof.
  revert q. induction p as [|a p IH]; intros q H.
  - left. exists q. now split.
  - destruct q as [|b q].
    + right. exists a, p. now split.
    + cbn in H. injection H as <- H.
      destruct (IH q H) as [(m & -> & ->)|(c & m & -> & ->)].
      * left. exists m. now split.
      * right. exists c, m. now split.
Qed.

Lemma starts_with_split (w s : string) :
  starts_with w s = true <-> exists rest, s = w ++ rest.
Proof.
  revert s. induction w as [|a w IH]; intros s; cbn.
  - split; [intros _; now exists s|reflexivity].
  - destruct s as [|b s].
    + split; [discriminate|]. intros [rest H]. discriminate H.
    + rewrite andb_true_iff, Ascii.eqb_eq, IH. split.
      * intros [-> [rest ->]]. now exists rest.
      * intros [rest [= <- ->]]. split; [reflexivity|now exists rest].
Qed.

Lemma ends_with_split (w s : string) :
  ends_with w s = true <-> exists p, s = p ++ w.
Proof.
  induction s as [|c s IH]; cbn.
  - rewrite orb_false_r, String.eqb_eq. split.
    + intros ->. now exists "".
    + intros [p H]. destruct p; [exact (eq_sym H)|discriminate H].
  - rewrite orb_true_iff, String.eqb_eq, IH. split.
    + intros [->|[p ->]]; [now exists ""|now exists (String c p)].
    + intros [[|d p] H]; [left; exact (eq_sym H)|].
      right. injection H as _ ->. now exists p.
Qed.

(** *** The table and the tests of the trim *)

Definition in_table (s : string) : bool := List.existsb (String.eqb s) whitespace.

Lemma in_table_In (s : string) : in_table s = true <-> In s whitespace.
Proof.
  unfold in_table. rewrite List.existsb_exists. split.
  - intros (w & Hw & E). apply String.eqb_eq in E. now subst.
  - intros H. exists s. split; [exact H|apply String.eqb_refl].
Qed.

Lemma isspace_in_table (a : ascii) : isspace a = in_table (String a "").
Proof. destruct a as [[] [] [] [] [] [] [] []]; vm_compute; reflexivity. Qed.

Lemma isspace2_in_table (a b : ascii) :
  isspace2 a b = in_table (String a (String b "")).
Proof.
  destruct a as [[] [] [] [] [] [] [] []]; try (vm_compute; reflexivity);
    destruct b as [[] [] [] [] [] [] [] []]; vm_compute; reflexivity.
Qed.

Lemma isspace3_in_table (a b c : ascii) :
  isspace3 a b c = in_table (String a (String b (String c ""))).
Proof.
  destruct a as [[] [] [] [] [] [] [] []]; try (vm_compute; reflexivity);
    destruct b as [[] [] [] [] [] [] [] []]; try (vm_compute; reflexivity);
    destruct c as [[] [] [] [] [] [] [] []]; vm_compute; reflexivity.
Qed.

(** An entry of the table is one, two or three bytes that the tests of
    [lstrip] accept in this order. *)
Lemma whitespace_shape (w : string) :
  In w whitespace ->
  (exists a, w = String a "" /\ isspace a = true)
  \/ (exists a b, w = String a (String b "")
                  /\ isspace a = false /\ isspace2 a b = true)
  \/ (exists a b c, w = String a (String b (String c ""))
                    /\ isspace a = false /\ isspace2 a b = false
                    /\ isspace3 a b c = true).
Proof.
  intros H. vm_compute in H.
  repeat (destruct H as [<-|H];
          [first [ left; eexists; split; reflexivity
                 | right; left; do 2 eexists; repeat split; reflexivity
                 | right; right; do 3 eexists; repeat split; reflexivity ]|]).
  contradiction.
Qed.

Lemma whitespace_not_empty (w : string) : In w whitespace -> w <> "".
Proof.
  intros H. destruct (whitespace_shape w H)
    as [(a & -> & _)|[(a & b & -> & _)|(a & b & c & -> & _)]]; discriminate.
Qed.

Lemma starts_with_space_iff (s : string) :
  starts_with_space s = true <-> exists w rest, In w whitespace /\ s = w ++ rest.
Proof.
  unfold starts_with_space. rewrite List.existsb_exists. split.
  - intros (w & Hw & H). apply starts_with_split in H as [rest ->]. now exists w, rest.
  - intros (w & rest & Hw & ->). exists w. split; [exact Hw|].
    apply starts_with_split. now exists rest.
Qed.

Lemma ends_with_space_iff (s : string) :
  ends_with_space s = true <-> exists p w, In w whitespace /\ s = p ++ w.
Proof.
  unfold ends_with_space. rewrite List.existsb_exists. split.
  - intros (w & Hw & H). apply ends_with_split in H as [p ->]. now exists p, w.
  - intros (p & w & Hw & ->). exists w. split; [exact Hw|].
    apply ends_with_split. now exists p.
Qed.

(** *** [lstrip] *)

Lemma lstrip_space (w rest : string) :
  In w whitespace -> lstrip (w ++ rest) = lstrip rest.
Proof.
  intros H. destruct (whitespace_shape w H)
    as [(a & -> & Ha)|[(a & b & -> & Ha & Hb)|(a & b & c & -> & Ha & Hb & Hc)]];
    cbn [String.append lstrip].
  - now rewrite Ha.
  - now rewrite Ha, Hb.
  - now rewrite Ha, Hb, Hc.
Qed.

Lemma lstrip_fixed (s : string) : starts_with_space s = false -> lstrip s = s.
Proof.
  intros H.
  assert (Hno : forall w rest, In w whitespace -> s <> w ++ rest).
  { intros w rest Hw E.
    assert (starts_with_space s = true) by (apply starts_with_space_iff; eauto).
    congruence. }
  destruct s as [|a [|b [|c s]]]; cbn [lstrip]; try reflexivity.
  - destruct (isspace a) eqn:Ha; [|reflexivity].
    exfalso. apply (Hno (String a "") ""); [|reflexivity].
    apply in_table_In. now rewrite <- isspace_in_table.
  - destruct (isspace a) eqn:Ha.
    { exfalso. apply (Hno (String a "") (String b "")); [|reflexivity].
      apply in_table_In. now rewrite <- isspace_in_table. }
    destruct (isspace2 a b) eqn:Hb; [|reflexivity].
    exfalso. apply (Hno (String a (String b "")) ""); [|reflexivity].
    apply in_table_In. now rewrite <- isspace2_in_table.
  - destruct (isspace a) eqn:Ha.
    { exfalso. apply (Hno (String a "") (String b (String c s))); [|reflexivity].
      apply in_table_In. now rewrite <- isspace_in_table. }
    destruct (isspace2 a b) eqn:Hb.
    { exfalso. apply (Hno (String a (String b "")) (String c s)); [|reflexivity].
      apply in_table_In. now rewrite <- isspace2_in_table. }
    destruct (isspace3 a b c) eqn:Hc; [|reflexivity].
    exfalso. apply (Hno (String a (String b (String c ""))) s); [|reflexivity].
    apply in_table_In. now rewrite <- isspace3_in_table.
Qed.

(** [lstrip] takes a blank text off the start and leaves a text that
    does not start with whitespace. *)
Lemma lstrip_decompose (s : string) :
  starts_with_space (lstrip s) = false
  /\ exists lead, Blank lead /\ s = lead ++ lstrip s.
Proof.
  remember (String.length s) as n eqn:Hn. revert s Hn.
  induction n as [n IH] using lt_wf_ind. intros s Hn.
  destruct (starts_with_space s) eqn:E.
  - apply starts_with_space_iff in E as (w & rest & Hw & ->).
    rewrite (lstrip_space w rest Hw).
    assert (Hlt : String.length rest < n).
    { subst n. rewrite length_append.
      pose proof (whitespace_not_empty w Hw). destruct w; [congruence|cbn; lia]. }
    destruct (IH _ Hlt rest eq_refl) as (H1 & lead & Hb & H2).
    split; [exact H1|]. exists (w ++ lead). split; [now constructor|].
    now rewrite append_assoc, <- H2.
  - rewrite (lstrip_fixed s E). split; [exact E|]. exists "". split; [constructor|reflexivity].
Qed.

Lemma lstrip_Blank (s : string) : Blank s <-> lstrip s = "".
Proof.
  split.
  - induction 1 as [|w rest Hw _ IH]; [reflexivity|]. now rewrite lstrip_space.
  - intros H. destruct (lstrip_decompose s) as (_ & lead & Hb & E).
    rewrite H, append_nil_r in E. now subst.
Qed.

(** *** [rstrip] *)

Lemma rstrip_decompose (s : string) : exists trail, Blank trail /\ s = rstrip s ++ trail.
Proof.
  induction s as [|c s IH]; [exists ""; split; [constructor|reflexivity]|].
  cbn [rstrip]. destruct (String.eqb_spec (lstrip (String c s)) "") as [E|_].
  - exists (String c s). split; [now apply lstrip_Blank|reflexivity].
  - destruct IH as (trail & Hb & E). exists trail. split; [exact Hb|].
    cbn. now rewrite <- E.
Qed.

Lemma Blank_last (t : string) :
  Blank t -> t <> "" -> exists p w, In w whitespace /\ t = p ++ w.
Proof.
  induction 1 as [|w rest Hw Hrest IH]; [congruence|]. intros _.
  destruct rest as [|c rest].
  - exists "", w. split; [exact Hw|apply append_nil_r].
  - destruct IH as (p & w' & Hw' & E); [discriminate|].
    exists (w ++ p), w'. split; [exact Hw'|]. now rewrite append_assoc, <- E.
Qed.

Lemma rstrip_no_trailing_space (s : string) : ends_with_space (rstrip s) = false.
Proof.
  destruct (ends_with_space (rstrip s)) eqn:E; [|reflexivity]. exfalso.
  apply ends_with_space_iff in E as (p & w & Hw & E).
  revert p E. induction s as [|c s IH]; intros p E.
  - cbn in E. destruct p; [|discriminate E].
    now apply (whitespace_not_empty w Hw).
  - cbn [rstrip] in E.
    destruct (String.eqb_spec (lstrip (String c s)) "") as [Hl|Hl].
    + destruct p; [|discriminate E]. now apply (whitespace_not_empty w Hw).
    + destruct p as [|d p].
      * cbn in E. apply Hl.
        destruct (rstrip_decompose s) as (trail & Hb & Hs).
        replace (String c s) with (w ++ trail).
        -- rewrite (lstrip_space w trail Hw). now apply lstrip_Blank.
        -- rewrite <- E. cbn. now rewrite <- Hs.
      * cbn in E. injection E as _ E. exact (IH p E).
Qed.

Lemma rstrip_fixed (s : string) : ends_with_space s = false -> rstrip s = s.
Proof.
  induction s as [|c s IH]; [reflexivity|]. intros H. cbn [rstrip].
  destruct (String.eqb_spec (lstrip (String c s)) "") as [Hl|_].
  - apply lstrip_Blank in Hl.
    destruct (Blank_last _ Hl) as (p & w & Hw & E); [discriminate|].
    assert (ends_with_space (String c s) = true)
      by (apply ends_with_space_iff; eauto).
    congruence.
  - f_equal. apply IH.
    destruct (ends_with_space s) eqn:E; [|reflexivity].
    apply ends_with_space_iff in E as (p & w & Hw & ->).
    assert (ends_with_space (String c (p ++ w)) = true).
    { apply ends_with_space_iff. exists (String c p), w. now split. }
    congruence.
Qed.

Lemma rstrip_keeps_start (s : string) :
  starts_with_space s = false -> starts_with_space (rstrip s) = false.
Proof.
  intros H. destruct (starts_with_space (rstrip s)) eqn:E; [|reflexivity].
  apply starts_with_space_iff in E as (w & rest & Hw & E).
  destruct (rstrip_decompose s) as (trail & _ & Hs).
  assert (starts_with_space s = true).
  { apply starts_with_space_iff. exists w, (rest ++ trail). split; [exact Hw|].
    now rewrite <- append_assoc, <- E. }
  congruence.
Qed.

(** *** [strip] *)

Lemma strip_no_leading_space (s : string) : starts_with_space (strip s) = false.
Proof. apply rstrip_keeps_start, lstrip_decompose. Qed.

Lemma strip_no_trailing_space (s : string) : ends_with_space (strip s) = false.
Proof. apply rstrip_no_trailing_space. Qed.

(** A text without whitespace at either end is left as it is. *)
Lemma strip_fixed (s : string) :
  starts_with_space s = false -> ends_with_space s = false -> strip s = s.
Proof. intros H1 H2. unfold strip. now rewrite (lstrip_fixed s H1), (rstrip_fixed s H2). Qed.

(** What [strip] takes off is blank at both ends. *)
Lemma strip_decompose (s : string) :
  exists lead trail, Blank lead /\ Blank trail /\ s = lead ++ strip s ++ trail.
Proof.
  destruct (lstrip_decompose s) as (_ & lead & Hl & E1).
  destruct (rstrip_decompose (lstrip s)) as (trail & Ht & E2).
  exists lead, trail. split; [exact Hl|]. split; [exact Ht|].
  unfold strip. now rewrite <- E2.
Qed.

(** The texts that [strip] empties are the blank ones. *)
Lemma strip_empty_iff (s : string) : strip s = "" <-> Blank s.
Proof.
  split.
  - intros H. apply lstrip_Blank.
    destruct (lstrip_decompose s) as (Hs & _). unfold strip in H.
    destruct (lstrip s) as [|c t] eqn:E; [reflexivity|].
    cbn [rstrip] in H. rewrite (lstrip_fixed _ Hs) in H. cbn in H. discriminate H.
  - intros H. apply lstrip_Blank in H. unfold strip. now rewrite H.
Qed.

(** *** Characters *)

Lemma all_chars_app (p : ascii -> bool) (a b : string) :
  all_chars p (a ++ b) = all_chars p a && all_chars p b.
Proof.
  induction a as [|c a IH]; [reflexivity|].
  cbn [String.append all_chars]. now rewrite IH, andb_assoc.
Qed.

Lemma quote_char_url_safe (c : ascii) : all_chars url_safe (quote_char c) = true.
Proof. destruct c as [[] [] [] [] [] [] [] []]; reflexivity. Qed.

Lemma quote_plus_url_safe (s : string) : all_chars url_safe (quote_plus s) = true.
Proof.
  induction s as [|c s IH]; [reflexivity|].
  cbn [quote_plus]. now rewrite all_chars_app, quote_char_url_safe, IH.
Qed.

Lemma all_chars_impl (p q : ascii -> bool) (s : string) :
  (forall c, p c = true -> q c = true) -> all_chars p s = true -> all_chars q s = true.
Proof.
  intros H. induction s as [|c s IH]; [reflexivity|]. cbn [all_chars].
  rewrite !andb_true_iff. intros [Hc Hs]. auto.
Qed.

Lemma url_safe_plain (c : ascii) : url_safe c = true -> plain c = true.
Proof.
  destruct c as [[] [] [] [] [] [] [] []]; cbn; intros H;
    first [reflexivity|discriminate H].
Qed.

Lemma whitespace_not_plain (w : string) :
  In w whitespace -> all_chars (fun c => negb (plain c)) w = true.
Proof.
  assert (H : List.forallb (all_chars (fun c => negb (plain c))) whitespace = true)
    by (vm_compute; reflexivity).
  intros Hw. exact (proj1 (List.forallb_forall _ _) H w Hw).
Qed.

(** After a text of plain characters the end is that of what follows. *)
Lemma ends_with_space_after_plain (p x : string) :
  all_chars plain p = true ->
  ends_with_space x = false ->
  ends_with_space (p ++ x) = false.
Proof.
  intros Hp Hx. destruct (ends_with_space (p ++ x)) eqn:E; [|reflexivity]. exfalso.
  apply ends_with_space_iff in E as (q & w & Hw & E).
  destruct (append_eq_append p x q w E) as [(m & _ & ->)|(c & m & -> & ->)].
  - assert (ends_with_space (m ++ w) = true) by (apply ends_with_space_iff; eauto).
    congruence.
  - apply whitespace_not_plain in Hw.
    rewrite all_chars_app in Hp. apply andb_true_iff in Hp as [_ Hp].
    cbn [String.append all_chars] in Hw, Hp.
    apply andb_true_iff in Hw as [Hw _]. apply andb_true_iff in Hp as [Hp _].
    rewrite Hp in Hw. discriminate Hw.
Qed.

Lemma plain_no_trailing_space (s : string) :
  all_chars plain s = true -> ends_with_space s = false.
Proof.
  intros H. rewrite <- (append_nil_r s). now apply ends_with_space_after_plain.
Qed.

(** The end of a text does not end with whitespace when the text does not. *)
Lemma suffix_no_trailing_space (pre x : string) :
  ends_with_space (pre ++ x) = false -> ends_with_space x = false.
Proof.
  intros H. destruct (ends_with_space x) eqn:E; [|reflexivity].
  apply ends_with_space_iff in E as (p & w & Hw & ->).
  assert (ends_with_space (pre ++ p ++ w) = true).
  { apply ends_with_space_iff. exists (pre ++ p), w. split; [exact Hw|].
    now rewrite append_assoc. }
  congruence.
Qed.

End PyShapeFacts.

(** ** The mood filter *)

Section FilterFacts.

Variable df : DataFrame.

Lemma lower_matches_label (mood : string) (l : MoodLabel) :
  String.eqb (PyStr.lower mood) (PyStr.lower (label_name l))
  = PyStr.eq_nocase mood (label_name l).
Proof. apply PyStrFacts.lower_eqb_nocase. Qed.

(** C1. For every mood string the filter is the fixed-threshold policy
    under case-insensitive matching of the label: [Happy] keeps exactly
    the rows with [valence >= 0.6], [Sad] those with [valence <= 0.4],
    [Calm] those with [acousticness >= 0.5] and [energy <= 0.6], [Angry]
    those with [energy >= 0.8], and any other text keeps the whole
    table. *)
Theorem filter_df_for_mood_policy (mood : string) :
  _filter_df_for_mood df mood = policy_rows df (recognise mood)
  /\ forall (l : MoodLabel) (row : Row),
      In row (policy_rows df (Some l)) <-> In row df /\ passes l row = true.
Proof.
  split.
  - unfold _filter_df_for_mood, recognise. cbn [List.find].
    rewrite <- (lower_matches_label mood Happy), <- (lower_matches_label mood Sad),
            <- (lower_matches_label mood Calm), <- (lower_matches_label mood Angry).
    cbn [label_name PyStr.lower].
    repeat match goal with
           | |- context [PyStr.lower_char ?c] =>
               let v := eval vm_compute in (PyStr.lower_char c) in
               change (PyStr.lower_char c) with v
           end.
    destruct (String.eqb (PyStr.lower mood) "happy"); [reflexivity|].
    destruct (String.eqb (PyStr.lower mood) "sad"); [reflexivity|].
    destruct (String.eqb (PyStr.lower mood) "calm"); [reflexivity|].
    destruct (String.eqb (PyStr.lower mood) "angry"); reflexivity.
  - intros l row. cbn [policy_rows]. unfold select. apply List.filter_In.
Qed.

End FilterFacts.

(** ** Sampling and the loop over the rows *)

Section TakeFacts.

Lemma take_length (positions : list nat) (df : DataFrame) :
  Forall (fun i => i < List.length df) positions ->
  List.length (take positions df) = List.length positions.
Proof.
  induction 1 as [|i l Hi _ IH]; [reflexivity|].
  unfold take in *. cbn [List.flat_map].
  rewrite List.length_app, IH.
  destruct (List.nth_error df i) eqn:E; [reflexivity|].
  apply List.nth_error_None in E. lia.
Qed.

Lemma take_incl (positions : list nat) (df : DataFrame) (row : Row) :
  In row (take positions df) -> In row df.
Proof.
  unfold take. rewrite List.in_flat_map. intros (i & _ & Hin).
  destruct (List.nth_error df i) eqn:E; [|contradiction].
  destruct Hin as [<-|[]]. eapply List.nth_error_In; eauto.
Qed.


Lemma select_incl (mask : Row -> bool) (df : DataFrame) (row : Row) :
  In row (select mask df) -> In row df.
Proof. unfold select. rewrite List.filter_In. tauto. Qed.

End TakeFacts.

Section LoopFacts.

Lemma song_of_row_None (row : Row) :
  song_of_row row = None <-> has_name row = false.
Proof.
  unfold song_of_row, has_name.
  destruct (String.eqb (display_name row) ""); cbn; split; congruence.
Qed.

Lemma song_of_row_name (row : Row) (song : Song) :
  song_of_row row = Some song ->
  song_name song = display_name row /\ song_name song <> ""
  /\ song_uri song = or_None (resolve_uri row (display_name row)).
Proof.
  unfold song_of_row.
  destruct (String.eqb_spec (display_name row) "") as [|Hne]; [discriminate|].
  intros [= <-]. cbn. auto.
Qed.

(** The loop yields one descriptor for each named row, in order. *)
Lemma build_songs_named (rows : DataFrame) :
  List.map Some (build_songs rows)
  = List.map song_of_row (List.filter has_name rows).
Proof.
  induction rows as [|row rows IH]; [reflexivity|].
  cbn [build_songs List.filter].
  destruct (song_of_row row) as [song|] eqn:E.
  - assert (has_name row = true) as ->.
    { destruct (has_name row) eqn:N; [reflexivity|].
      apply song_of_row_None in N. congruence. }
    cbn [List.map]. now rewrite IH, E.
  - apply song_of_row_None in E. now rewrite E.
Qed.

Lemma build_songs_length (rows : DataFrame) :
  List.length (build_songs rows) = List.length (List.filter has_name rows).
Proof.
  rewrite <- (List.length_map Some), build_songs_named. apply List.length_map.
Qed.

Lemma build_songs_le (rows : DataFrame) :
  List.length (build_songs rows) <= List.length rows.
Proof. rewrite build_songs_length. apply List.filter_length_le. Qed.

Lemma build_songs_In (rows : DataFrame) (song : Song) :
  In song (build_songs rows) ->
  exists row, In row rows /\ song_of_row row = Some song.
Proof.
  induction rows as [|row rows IH]; cbn [build_songs]; [contradiction|].
  destruct (song_of_row row) as [s|] eqn:E.
  - intros [<-|Hin].
    + exists row. split; [now left|assumption].
    + destruct (IH Hin) as (r & Hr & Hs). exists r. split; [now right|assumption].
  - intros Hin. destruct (IH Hin) as (r & Hr & Hs).
    exists r. split; [now right|assumption].
Qed.

Lemma build_songs_unnamed (rows : DataFrame) :
  Forall (fun row => display_name row = "") rows -> build_songs rows = [].
Proof.
  induction 1 as [|row rows Hrow _ IH]; [reflexivity|].
  cbn [build_songs]. unfold song_of_row. rewrite Hrow. cbn. exact IH.
Qed.

End LoopFacts.

Section CandidateFacts.

Variable df : DataFrame.

Lemma filter_df_for_mood_incl (mood : string) (row : Row) :
  In row (_filter_df_for_mood df mood) -> In row df.
Proof.
  unfold _filter_df_for_mood.
  repeat match goal with
         | |- context [if ?b then _ else _] => destruct b
         end; intros H; first [exact H | eapply select_incl; exact H].
Qed.


Lemma candidates_incl (mood : string) (row : Row) :
  In row (candidates df mood) -> In row df.
Proof.
  unfold candidates.
  destruct (empty (_filter_df_for_mood df mood)); [auto|].
  apply filter_df_for_mood_incl.
Qed.


(** What [chosen_rows] returns for a limit that is not negative. *)
Lemma chosen_rows_spec (rs : RandomSource) (mood : string) (limit : Z) :
  (0 <= limit)%Z ->
  let subset := candidates df mood in
  if (Z.of_nat (List.length subset) >? limit)%Z
  then exists positions,
      chosen_rows df rs mood limit = Ok (take positions subset)
      /\ List.length positions = Z.to_nat limit
      /\ NoDup positions
      /\ Forall (fun i => i < List.length subset) positions
  else chosen_rows df rs mood limit = Ok subset.
Proof.
  intros Hl subset. unfold chosen_rows. fold subset.
  destruct (Z.of_nat (List.length subset) >? limit)%Z eqn:E; [|reflexivity].
  apply Z.gtb_lt in E.
  assert (Hle : Z.to_nat limit <= List.length subset) by lia.
  exists (choice rs (List.length subset) (Z.to_nat limit)).
  unfold sample.
  destruct (Z.ltb_spec limit 0); [lia|].
  destruct (Z.ltb_spec (Z.of_nat (List.length subset)) limit); [lia|].
  auto using choice_size, choice_distinct, choice_range.
Qed.

Lemma chosen_rows_incl (rs : RandomSource) (mood : string) (limit : Z)
      (rows : DataFrame) (row : Row) :
  chosen_rows df rs mood limit = Ok rows -> In row rows -> In row df.
Proof.
  unfold chosen_rows, sample.
  destruct (Z.of_nat (List.length (candidates df mood)) >? limit)%Z.
  - destruct (limit <? 0)%Z; [discriminate|].
    destruct (Z.of_nat (List.length (candidates df mood)) <? limit)%Z; [discriminate|].
    intros [= <-] Hin. eapply candidates_incl, take_incl, Hin.
  - intros [= <-]. apply candidates_incl.
Qed.

End CandidateFacts.

(** ** The resolved link *)

Section UriFacts.

Lemma is_http_not_spotify (t : string) :
  is_http t = true -> PyStr.startswith t "spotify:track:" = false.
Proof.
  unfold is_http, PyStr.startswith.
  destruct t as [|c t]; [discriminate|]. cbn [String.prefix].
  destruct (ascii_dec "s" c) as [<-|]; [|reflexivity].
  cbn. discriminate.
Qed.

Lemma is_http_not_empty (t : string) : is_http t = true -> String.eqb t "" = false.
Proof. destruct t; [discriminate|reflexivity]. Qed.

Lemma is_http_spotify_web (t : string) : is_http (spotify_web t) = true.
Proof. reflexivity. Qed.

Lemma is_http_youtube_search (row : Row) (name : string) :
  is_http (youtube_search row name) = true.
Proof. reflexivity. Qed.

Lemma resolve_uri_http_case (row : Row) (name : string) :
  is_http (trimmed_uri row) = true -> resolve_uri row name = trimmed_uri row.
Proof.
  intros H. unfold resolve_uri. fold (trimmed_uri row).
  rewrite (is_http_not_spotify _ H).
  fold (is_http (trimmed_uri row)).
  now rewrite H, (is_http_not_empty _ H).
Qed.

Lemma resolve_uri_spotify_case (row : Row) (name : string) :
  PyStr.startswith (trimmed_uri row) "spotify:track:" = true ->
  resolve_uri row name = spotify_web (trimmed_uri row).
Proof.
  intros H. unfold resolve_uri. fold (trimmed_uri row). rewrite H.
  fold (spotify_web (trimmed_uri row)).
  fold (is_http (spotify_web (trimmed_uri row))).
  now rewrite is_http_spotify_web,
    (is_http_not_empty _ (is_http_spotify_web (trimmed_uri row))).
Qed.

Lemma resolve_uri_fallback_case (row : Row) (name : string) :
  is_http (trimmed_uri row) = false ->
  PyStr.startswith (trimmed_uri row) "spotify:track:" = false ->
  resolve_uri row name = youtube_search row name.
Proof.
  intros H1 H2. unfold resolve_uri. fold (trimmed_uri row). rewrite H2.
  fold (is_http (trimmed_uri row)). rewrite H1.
  now rewrite orb_true_r.
Qed.

Lemma resolve_uri_is_http (row : Row) (name : string) :
  is_http (resolve_uri row name) = true.
Proof.
  destruct (is_http (trimmed_uri row)) eqn:H1.
  - now rewrite resolve_uri_http_case.
  - destruct (PyStr.startswith (trimmed_uri row) "spotify:track:") eqn:H2.
    + rewrite resolve_uri_spotify_case by assumption. apply is_http_spotify_web.
    + rewrite resolve_uri_fallback_case by assumption. apply is_http_youtube_search.
Qed.

End UriFacts.

(** ** The sample space of [DataFrame.sample] *)

Section SampleFacts.



Lemma arrangements_spec (n : nat) :
  forall (pool a : list nat),
    In a (arrangements pool n)
    <-> List.length a = n /\ NoDup a /\ Forall (fun i => In i pool) a.
Proof.
  induction n as [|n IH]; intros pool a; cbn [arrangements].
  - split.
    + intros [<-|[]]. repeat split; constructor.
    + intros (H & _ & _). destruct a; [now left|discriminate].
  - rewrite List.in_flat_map. split.
    + intros (i & Hi & Ha). apply List.in_map_iff in Ha as (a' & <- & Ha').
      apply IH in Ha' as (Hlen & Hnd & Hall).
      rewrite List.Forall_forall in Hall.
      split; [cbn; now rewrite Hlen|]. split.
      * constructor; [|exact Hnd]. intros Hin.
        apply Hall, List.in_remove in Hin. tauto.
      * constructor; [exact Hi|]. apply List.Forall_forall.
        intros x Hx. now apply Hall, List.in_remove in Hx.
    + intros (Hlen & Hnd & Hall). destruct a as [|i a']; [discriminate|].
      inversion Hnd as [|? ? Hi Hnd']; subst.
      inversion Hall as [|? ? Hpool Hall']; subst.
      exists i. split; [exact Hpool|]. apply List.in_map, IH.
      split; [cbn in Hlen; lia|]. split; [exact Hnd'|].
      rewrite List.Forall_forall in *. intros x Hx.
      apply List.in_in_remove; [|now apply Hall']. intros ->. tauto.
Qed.






Lemma draws_spec (len n : nat) (a : list nat) :
  In a (draws len n)
  <-> List.length a = n /\ NoDup a /\ Forall (fun i => i < len) a.
Proof.
  unfold draws. rewrite arrangements_spec.
  split; intros (H1 & H2 & H3); repeat split; auto;
    rewrite List.Forall_forall in *; intros i Hi; specialize (H3 i Hi);
    [apply List.in_seq in H3|apply List.in_seq]; lia.
Qed.



(** The source whose draw is [a] wherever [a] is a draw. *)
Definition draw_choice (a : list nat) (len n : nat) : list nat :=
  if List.in_dec (List.list_eq_dec Nat.eq_dec) a (draws len n) then a
  else List.seq 0 n.

Lemma draw_choice_In (a : list nat) (len n : nat) :
  n <= len -> In (draw_choice a len n) (draws len n).
Proof.
  intros H. unfold draw_choice.
  destruct (List.in_dec (List.list_eq_dec Nat.eq_dec) a (draws len n)) as [Hin|_];
    [exact Hin|].
  apply draws_spec. split; [apply List.length_seq|]. split; [apply List.seq_NoDup|].
  apply List.Forall_forall. intros i Hi. apply List.in_seq in Hi. lia.
Qed.

Lemma draw_size (a : list nat) (len n : nat) :
  n <= len -> List.length (draw_choice a len n) = n.
Proof. intros H. now apply (draws_spec len n), draw_choice_In. Qed.

Lemma draw_distinct (a : list nat) (len n : nat) :
  n <= len -> NoDup (draw_choice a len n).
Proof. intros H. now apply (draws_spec len n), draw_choice_In. Qed.

Lemma draw_range (a : list nat) (len n : nat) :
  n <= len -> Forall (fun i => i < len) (draw_choice a len n).
Proof. intros H. now apply (draws_spec len n), draw_choice_In. Qed.

Definition draw_source (a : list nat) : RandomSource :=
  mkRandomSource (draw_choice a) (draw_size a) (draw_distinct a) (draw_range a).



End SampleFacts.

(** ** The recommendation engine *)

Section RecommendFacts.

Import Fixtures.





(** C6. For every mood, when the filter keeps no row the candidate subset
    is the whole table, so a table that has rows always gives
    candidates. *)
Theorem candidates_fallback (df : DataFrame) (mood : string) :
  (_filter_df_for_mood df mood = [] -> candidates df mood = df)
  /\ (df <> [] -> candidates df mood <> []).
Proof.
  unfold candidates.
  destruct (_filter_df_for_mood df mood) as [|row rows] eqn:E; cbn [empty].
  - split; auto.
  - split; [discriminate|]. intros _. discriminate.
Qed.

Lemma candidates_fallback_witness :
  _filter_df_for_mood [gloomy] "Happy" = []
  /\ candidates [gloomy] "Happy" = [gloomy]
  /\ candidates [gloomy] "Happy" <> [].
Proof.
  assert (H : _filter_df_for_mood [gloomy] "Happy" = []) by (vm_compute; reflexivity).
  split; [exact H|]. split.
  - exact (proj1 (candidates_fallback [gloomy] "Happy") H).
  - apply (proj2 (candidates_fallback [gloomy] "Happy")). discriminate.
Defined.

End RecommendFacts.

Section DescriptorFacts.

Import Fixtures.

Lemma song_of_row_None_iff_Blank (row : Row) :
  (song_of_row row = None <-> PyShape.Blank (name_text row))
  /\ (has_name row = false <-> PyShape.Blank (name_text row)).
Proof.
  assert (H : has_name row = false <-> PyShape.Blank (name_text row)).
  { unfold has_name. rewrite negb_false_iff, String.eqb_eq.
    apply PyShapeFacts.strip_empty_iff. }
  split; [|exact H]. now rewrite song_of_row_None.
Qed.

Lemma three_spaces_Blank : PyShape.Blank "   ".
Proof.
  assert (Hs : In " " PyShape.whitespace)
    by (apply PyShapeFacts.in_table_In; vm_compute; reflexivity).
  apply (PyShape.Blank_space " " "  " Hs).
  apply (PyShape.Blank_space " " " " Hs).
  apply (PyShape.Blank_space " " "" Hs).
  constructor.
Qed.

(** C7. Rows whose display name is empty after trimming are skipped by
    the loop, which runs over the rows left after the limit-sized sample
    and takes no further candidate in their place: the descriptors are
    those of the named rows among the chosen ones, and a row is skipped
    exactly when the text of its name is blank (whitespace characters
    and nothing else).  So the list can be shorter than [limit] although
    the table has [limit] matching rows with a name. *)
Theorem skipped_rows_not_backfilled :
  (forall (df : DataFrame) (rs : RandomSource) (mood : string) (limit : Z),
      (0 <= limit)%Z ->
      exists rows,
        chosen_rows df rs mood limit = Ok rows
        /\ List.length rows
           = Nat.min (List.length (candidates df mood)) (Z.to_nat limit)
        /\ recommend_songs_for_mood df rs mood limit = Ok (build_songs rows)
        /\ List.map Some (build_songs rows)
           = List.map song_of_row (List.filter has_name rows)
        /\ List.length (build_songs rows) = List.length (List.filter has_name rows))
  /\ (forall row : Row,
         (song_of_row row = None <-> PyShape.Blank (name_text row))
         /\ (has_name row = false <-> PyShape.Blank (name_text row)))
  /\ (exists (df : DataFrame) (rs : RandomSource) (mood : string) (limit : Z)
             (songs : list Song),
         recommend_songs_for_mood df rs mood limit = Ok songs
         /\ (Z.of_nat (List.length songs) < limit)%Z
         /\ (limit <= Z.of_nat
               (List.length (List.filter has_name (_filter_df_for_mood df mood))))%Z
         /\ exists row,
             In row (_filter_df_for_mood df mood)
             /\ name_text row <> ""
             /\ PyShape.Blank (name_text row)).
Proof.
  split; [|split].
  - intros df rs mood limit Hl.
    pose proof (chosen_rows_spec df rs mood limit Hl) as Hc. cbv zeta in Hc.
    unfold recommend_songs_for_mood.
    destruct (Z.gtb_spec (Z.of_nat (List.length (candidates df mood))) limit) as [Hgt|Hle].
    + destruct Hc as (positions & Hc & Hn & _ & Hr).
      exists (take positions (candidates df mood)). rewrite Hc. cbn [bind].
      rewrite (take_length _ _ Hr), Hn.
      repeat split; auto using build_songs_named, build_songs_length. lia.
    + exists (candidates df mood). rewrite Hc. cbn [bind].
      repeat split; auto using build_songs_named, build_songs_length. lia.
  - exact song_of_row_None_iff_Blank.
  - exists [blank; sunny; linked; gloomy], first_positions, "Happy", 2%Z, [sunny_song].
    split; [vm_compute; reflexivity|].
    split; [vm_compute; reflexivity|].
    split; [vm_compute; discriminate|].
    exists blank. split; [vm_compute; left; reflexivity|].
    split; [discriminate|exact three_spaces_Blank].
Qed.

Lemma skipped_rows_not_backfilled_witness :
  song_of_row blank = None
  /\ exists rows,
      chosen_rows [blank; sunny; linked; gloomy] first_positions "Happy" 2 = Ok rows
      /\ List.length rows
         = Nat.min (List.length (candidates [blank; sunny; linked; gloomy] "Happy"))
                   (Z.to_nat 2)
      /\ recommend_songs_for_mood [blank; sunny; linked; gloomy] first_positions "Happy" 2
         = Ok (build_songs rows)
      /\ List.map Some (build_songs rows)
         = List.map song_of_row (List.filter has_name rows)
      /\ List.length (build_songs rows) = List.length (List.filter has_name rows).
Proof.
  split.
  - apply (proj1 (proj1 (proj2 skipped_rows_not_backfilled) blank)).
    exact three_spaces_Blank.
  - apply (proj1 skipped_rows_not_backfilled
                 [blank; sunny; linked; gloomy] first_positions "Happy" 2%Z).
    lia.
Defined.

(** A name wrapped in no-break spaces is trimmed; a name of no-break
    spaces only is blank, and its row is skipped. *)
Example padded_name_is_trimmed :
  option_map song_name (song_of_row padded) = Some "Song"
  /\ song_of_row (mkRow None (Some (Str (nbsp ++ " " ++ nbsp))) None None None None
                        0.9 0.7 0.2)
     = None.
Proof. vm_compute. split; reflexivity. Qed.

(** C10. When every row the loop runs over has a display name that is
    empty after trimming, all of them are skipped and the list returned
    is empty; this happens on a table that has rows. *)
Theorem recommend_may_return_nothing :
  (forall (df : DataFrame) (rs : RandomSource) (mood : string) (limit : Z)
          (rows : DataFrame),
      chosen_rows df rs mood limit = Ok rows ->
      Forall (fun row => display_name row = "") rows ->
      recommend_songs_for_mood df rs mood limit = Ok [])
  /\ (exists (df : DataFrame) (rs : RandomSource) (mood : string) (limit : Z),
         df <> []
         /\ (Z.of_nat (List.length (candidates df mood)) > limit)%Z
         /\ recommend_songs_for_mood df rs mood limit = Ok []).
Proof.
  split.
  - intros df rs mood limit rows Hc Hrows.
    unfold recommend_songs_for_mood. rewrite Hc. cbn [bind].
    now rewrite build_songs_unnamed.
  - exists [blank; sunny], first_positions, "Happy", 1%Z.
    split; [discriminate|]. vm_compute. split; reflexivity.
Qed.

Lemma recommend_may_return_nothing_witness :
  recommend_songs_for_mood [blank] first_positions "Angry" 10 = Ok [].
Proof.
  apply (proj1 recommend_may_return_nothing
               [blank] first_positions "Angry" 10%Z [blank]).
  - vm_compute. reflexivity.
  - repeat constructor.
Defined.

(** What the code reads of the raw [uri] cell is its trimmed text. *)
Lemma trimmed_uri_is_trimmed (row : Row) :
  match row_get (col_uri row) PyNone with
  | Str raw =>
      exists lead trail,
        PyShape.Blank lead /\ PyShape.Blank trail
        /\ raw = lead ++ trimmed_uri row ++ trail
  | Other _ _ => trimmed_uri row = ""
  end
  /\ PyShape.starts_with_space (trimmed_uri row) = false
  /\ PyShape.ends_with_space (trimmed_uri row) = false.
Proof.
  unfold trimmed_uri, stripped_if_str.
  destruct (row_get (col_uri row) PyNone) as [raw|b t].
  - split; [apply PyShapeFacts.strip_decompose|].
    split; [apply PyShapeFacts.strip_no_leading_space
           |apply PyShapeFacts.strip_no_trailing_space].
  - repeat split; reflexivity.
Qed.

(** C4, as the code has it. Every descriptor that
    [recommend_songs_for_mood] returns comes from a row of the table and
    carries a link that is not empty and starts with [http://] or
    [https://].  The raw [uri] cell is first trimmed: what is read of it
    is the raw text without the whitespace at its two ends, and the
    empty text when the cell holds no string.  A trimmed value that
    starts with http(s) is the link, a trimmed value that starts with
    [spotify:track:] is rewritten to the web address of the track, and
    any other value gives the YouTube search address for the URL-encoded
    name and artist. *)
Theorem descriptor_uri_is_http (df : DataFrame) (rs : RandomSource)
        (mood : string) (limit : Z) (songs : list Song) (song : Song) :
  recommend_songs_for_mood df rs mood limit = Ok songs ->
  In song songs ->
  exists row uri,
    In row df
    /\ song_of_row row = Some song
    /\ song_uri song = Some uri
    /\ uri <> ""
    /\ is_http uri = true
    /\ match row_get (col_uri row) PyNone with
       | Str raw =>
           exists lead trail,
             PyShape.Blank lead /\ PyShape.Blank trail
             /\ raw = lead ++ trimmed_uri row ++ trail
       | Other _ _ => trimmed_uri row = ""
       end
    /\ PyShape.starts_with_space (trimmed_uri row) = false
    /\ PyShape.ends_with_space (trimmed_uri row) = false
    /\ (is_http (trimmed_uri row) = true -> uri = trimmed_uri row)
    /\ (PyStr.startswith (trimmed_uri row) "spotify:track:" = true ->
        uri = spotify_web (trimmed_uri row))
    /\ (is_http (trimmed_uri row) = false ->
        PyStr.startswith (trimmed_uri row) "spotify:track:" = false ->
        uri = youtube_search row (song_name song)).
Proof.
  unfold recommend_songs_for_mood.
  destruct (chosen_rows df rs mood limit) as [rows|e] eqn:Hc; cbn [bind]; [|discriminate].
  intros [= <-] Hin.
  destruct (build_songs_In rows song Hin) as (row & Hrow & Hsong).
  destruct (song_of_row_name row song Hsong) as (Hname & _ & Huri).
  pose proof (resolve_uri_is_http row (display_name row)) as Hhttp.
  destruct (trimmed_uri_is_trimmed row) as (Ht1 & Ht2 & Ht3).
  exists row, (resolve_uri row (display_name row)).
  split; [eapply chosen_rows_incl; eauto|].
  split; [assumption|].
  split.
  { rewrite Huri. unfold or_None. now rewrite (is_http_not_empty _ Hhttp). }
  split.
  { intros E. rewrite E in Hhttp. discriminate. }
  split; [assumption|].
  split; [exact Ht1|]. split; [exact Ht2|]. split; [exact Ht3|].
  rewrite Hname.
  auto using resolve_uri_http_case, resolve_uri_spotify_case, resolve_uri_fallback_case.
Qed.

Lemma descriptor_uri_is_http_witness :
  exists row uri,
    In row [gloomy; linked]
    /\ song_of_row row = Some linked_song
    /\ song_uri linked_song = Some uri
    /\ uri <> ""
    /\ is_http uri = true
    /\ match row_get (col_uri row) PyNone with
       | Str raw =>
           exists lead trail,
             PyShape.Blank lead /\ PyShape.Blank trail
             /\ raw = lead ++ trimmed_uri row ++ trail
       | Other _ _ => trimmed_uri row = ""
       end
    /\ PyShape.starts_with_space (trimmed_uri row) = false
    /\ PyShape.ends_with_space (trimmed_uri row) = false
    /\ (is_http (trimmed_uri row) = true -> uri = trimmed_uri row)
    /\ (PyStr.startswith (trimmed_uri row) "spotify:track:" = true ->
        uri = spotify_web (trimmed_uri row))
    /\ (is_http (trimmed_uri row) = false ->
        PyStr.startswith (trimmed_uri row) "spotify:track:" = false ->
        uri = youtube_search row (song_name linked_song)).
Proof.
  apply (descriptor_uri_is_http [gloomy; linked] first_positions "Happy" 10%Z
                                [linked_song] linked_song).
  - vm_compute. reflexivity.
  - left. reflexivity.
Defined.

(** A link wrapped in no-break spaces is trimmed as well, and a genre of
    a no-break space alone is no genre. *)
Example padded_uri_is_trimmed :
  song_of_row padded
  = Some (mkSong "8" "Song" None (Some "https://example.com/b")).
Proof. vm_compute. reflexivity. Qed.

(** C4, a row the claim does not hold at: the raw value starts with
    [https://] and ends with a space; the link of the descriptor is the
    trimmed text, not the raw value. *)
Lemma raw_http_uri_is_trimmed :
  row_get (col_uri linked) PyNone = Str "https://example.com/a "
  /\ PyStr.startswith "https://example.com/a " "https://" = true
  /\ recommend_songs_for_mood [linked] first_positions "Happy" 10
     = Ok [mkSong "3" "Walk" (Some "pop") (Some "https://example.com/a")]
  /\ "https://example.com/a" <> "https://example.com/a ".
Proof.
  split; [reflexivity|]. split; [reflexivity|].
  split; [vm_compute; reflexivity|discriminate].
Qed.

(** The examples of the specification. *)
Example spotify_uri_example :
  option_map song_uri (song_of_row gloomy)
  = Some (Some "https://open.spotify.com/track/ABC123").
Proof. vm_compute. reflexivity. Qed.

Example search_uri_example : song_of_row sunny = Some sunny_song.
Proof. vm_compute. reflexivity. Qed.

End DescriptorFacts.

(** ** The label of a prediction *)

Section ArgmaxFacts.

Local Open Scope Q_scope.

(** What it is for [x], at position [i] of [l], to be what [np.argmax]
    looks for: the first nan when there is one, otherwise the first of
    the greatest numbers. *)
Definition first_greatest (l : list float32) (i : nat) (x : float32) : Prop :=
  match x with
  | nan32 =>
      forall j y, (j < i)%nat -> List.nth_error l j = Some y -> y <> nan32
  | num32 q =>
      (forall j y, List.nth_error l j = Some y -> exists w, y = num32 w /\ w <= q)
      /\ (forall j w, (j < i)%nat -> List.nth_error l j = Some (num32 w) -> w < q)
  end.

Lemma le32_num (x : float32) (q : Q) :
  le32 x (num32 q) = true <-> exists a, x = num32 a /\ a <= q.
Proof.
  destruct x as [|a]; cbn.
  - split; [discriminate|]. intros (a & H & _). discriminate H.
  - rewrite Qle_bool_iff. split; [intros H; now exists a|].
    intros (b & [= <-] & H). exact H.
Qed.

(** The scan with the number [q] in hand: it ends on the position it
    came with when nothing later is greater or nan; on the first later
    nan when no greater number comes before it... or on the first
    position of the greatest later number. *)
Lemma argmax_from_correct (l : list float32) :
  forall (best_i : nat) (q : Q) (i : nat),
    (argmax_from best_i (num32 q) i l = best_i
     /\ Forall (fun y => exists w, y = num32 w /\ w <= q) l)
    \/ (exists k,
           argmax_from best_i (num32 q) i l = (i + k)%nat
           /\ List.nth_error l k = Some nan32
           /\ (forall j y, (j < k)%nat -> List.nth_error l j = Some y -> y <> nan32))
    \/ (exists k v,
           argmax_from best_i (num32 q) i l = (i + k)%nat
           /\ List.nth_error l k = Some (num32 v)
           /\ q < v
           /\ (forall j w, (j < k)%nat -> List.nth_error l j = Some (num32 w) -> w < v)
           /\ Forall (fun y => exists w, y = num32 w /\ w <= v) l).
Proof.
  induction l as [|x rest IH]; intros best_i q i; cbn [argmax_from].
  - left. split; [reflexivity|constructor].
  - destruct (le32 x (num32 q)) eqn:E.
    + apply le32_num in E as (a & -> & Ha).
      destruct (IH best_i q (S i))
        as [[Hr Hall]|[(k & Hr & Hk & Hb)|(k & v & Hr & Hk & Hlt & Hfirst & Hall)]].
      * left. split; [exact Hr|]. constructor; [now exists a|exact Hall].
      * right. left. exists (S k). rewrite Hr.
        split; [lia|]. split; [exact Hk|].
        intros [|j] y Hj Hy; cbn in Hy.
        -- injection Hy as <-. discriminate.
        -- apply (Hb j y); [lia|exact Hy].
      * right. right. exists (S k), v. rewrite Hr.
        split; [lia|]. split; [exact Hk|]. split; [exact Hlt|]. split.
        -- intros [|j] w Hj Hw; cbn in Hw.
           ++ injection Hw as <-. eapply Qle_lt_trans; eassumption.
           ++ apply (Hfirst j w); [lia|exact Hw].
        -- constructor; [|exact Hall]. exists a. split; [reflexivity|].
           apply Qlt_le_weak. eapply Qle_lt_trans; eassumption.
    + destruct x as [|a]; cbn [isnan32].
      * right. left. exists 0%nat. split; [lia|]. split; [reflexivity|].
        intros j y Hj. lia.
      * assert (Ha : q < a).
        { apply Qnot_le_lt. intros H. apply Qle_bool_iff in H.
          cbn in E. congruence. }
        destruct (IH i a (S i))
          as [[Hr Hall]|[(k & Hr & Hk & Hb)|(k & v & Hr & Hk & Hlt & Hfirst & Hall)]].
        -- right. right. exists 0%nat, a. rewrite Hr.
           split; [lia|]. split; [reflexivity|]. split; [exact Ha|]. split.
           ++ intros j w Hj. lia.
           ++ constructor; [|exact Hall]. exists a. split; [reflexivity|apply Qle_refl].
        -- right. left. exists (S k). rewrite Hr.
           split; [lia|]. split; [exact Hk|].
           intros [|j] y Hj Hy; cbn in Hy.
           ++ injection Hy as <-. discriminate.
           ++ apply (Hb j y); [lia|exact Hy].
        -- right. right. exists (S k), v. rewrite Hr.
           split; [lia|]. split; [exact Hk|].
           split; [eapply Qlt_trans; eassumption|]. split.
           ++ intros [|j] w Hj Hw; cbn in Hw.
              ** injection Hw as <-. exact Hlt.
              ** apply (Hfirst j w); [lia|exact Hw].
           ++ constructor; [|exact Hall]. exists a. split; [reflexivity|].
              now apply Qlt_le_weak.
Qed.

(** [argmax] is the position [np.argmax] returns. *)
Lemma argmax_first_greatest (l : list float32) :
  l <> [] ->
  exists x, List.nth_error l (argmax l) = Some x /\ first_greatest l (argmax l) x.
Proof.
  destruct l as [|x rest]; [congruence|]. intros _. cbn [argmax].
  destruct x as [|q]; cbn [isnan32].
  { exists nan32. split; [reflexivity|]. intros j y Hj. lia. }
  destruct (argmax_from_correct rest 0%nat q 1%nat)
    as [[Hr Hall]|[(k & Hr & Hk & Hb)|(k & v & Hr & Hk & Hlt & Hfirst & Hall)]];
    rewrite Hr.
  - exists (num32 q). split; [reflexivity|]. split.
    + intros [|j] y Hy; cbn in Hy.
      * injection Hy as <-. exists q. split; [reflexivity|apply Qle_refl].
      * rewrite List.Forall_forall in Hall. apply Hall.
        eapply List.nth_error_In; eassumption.
    + intros j w Hj. lia.
  - exists nan32. split; [exact Hk|].
    intros [|j] y Hj Hy; cbn in Hy.
    + injection Hy as <-. discriminate.
    + apply (Hb j y); [lia|exact Hy].
  - exists (num32 v). split; [exact Hk|]. split.
    + intros [|j] y Hy; cbn in Hy.
      * injection Hy as <-. exists q. split; [reflexivity|now apply Qlt_le_weak].
      * rewrite List.Forall_forall in Hall. apply Hall.
        eapply List.nth_error_In; eassumption.
    + intros [|j] w Hj Hw; cbn in Hw.
      * injection Hw as <-. exact Hlt.
      * apply (Hfirst j w); [lia|exact Hw].
Qed.

Lemma argmax_lt_length (l : list float32) :
  l <> [] -> (argmax l < List.length l)%nat.
Proof.
  intros H. destruct (argmax_first_greatest l H) as (v & Hv & _).
  apply List.nth_error_Some. congruence.
Qed.

End ArgmaxFacts.

Lemma emotion_dict_get (i : nat) (l : MoodLabel) :
  List.nth_error labels i = Some l ->
  dict_get _EMOTION_DICT i "Calm" = label_name l.
Proof.
  destruct i as [|[|[|[|i]]]]; cbn; try (intros [= <-]; reflexivity).
  destruct i; discriminate.
Qed.

(** ** The region of interest *)

Section CropFacts.

Context {A : Type}.

Lemma slice_length (lo hi : nat) (l : list A) :
  hi <= List.length l -> List.length (slice lo hi l) = hi - lo.
Proof.
  intros H. unfold slice. rewrite List.length_firstn, List.length_skipn. lia.
Qed.

Lemma nth_error_slice (lo hi : nat) (l : list A) (i : nat) :
  i < hi - lo -> List.nth_error (slice lo hi l) i = List.nth_error l (lo + i).
Proof.
  intros H. unfold slice. rewrite List.nth_error_firstn.
  destruct (Nat.ltb_spec i (hi - lo)); [|lia].
  apply List.nth_error_skipn.
Qed.

Lemma Forall_slice (P : A -> Prop) (lo hi : nat) (l : list A) :
  Forall P l -> Forall P (slice lo hi l).
Proof.
  rewrite !List.Forall_forall. intros H x Hx.
  apply List.In_nth_error in Hx as [n Hn].
  unfold slice in Hn. rewrite List.nth_error_firstn in Hn.
  destruct (Nat.ltb n (hi - lo)); [|discriminate].
  rewrite List.nth_error_skipn in Hn.
  eapply H, List.nth_error_In, Hn.
Qed.

End CropFacts.

Section RoiFacts.

Lemma half_le (n : nat) : n / 2 <= n.
Proof. apply Nat.Div0.div_le_upper_bound. lia. Qed.

Lemma crop_rows (gray : GrayImage) (y0 y1 x0 x1 : nat) :
  y1 <= List.length gray -> List.length (crop gray y0 y1 x0 x1) = y1 - y0.
Proof. intros H. unfold crop. rewrite List.length_map. now apply slice_length. Qed.

Lemma crop_columns (gray : GrayImage) (w y0 y1 x0 x1 : nat) :
  Forall (fun row => List.length row = w) gray ->
  x1 <= w ->
  Forall (fun row => List.length row = x1 - x0) (crop gray y0 y1 x0 x1).
Proof.
  intros Hw Hx. unfold crop. apply List.Forall_map.
  apply Forall_slice. eapply List.Forall_impl; [|exact Hw].
  cbn. intros row Hrow. apply slice_length. lia.
Qed.

Lemma crop_pixel (gray : GrayImage) (y0 y1 x0 x1 i j : nat) :
  i < y1 - y0 -> j < x1 - x0 ->
  pixel (crop gray y0 y1 x0 x1) i j = pixel gray (y0 + i) (x0 + j).
Proof.
  intros Hi Hj. unfold pixel, crop.
  rewrite List.nth_error_map, nth_error_slice by assumption.
  destruct (List.nth_error gray (y0 + i)) as [row|]; cbn; [|reflexivity].
  now apply nth_error_slice.
Qed.

Lemma shape_square (img : GrayImage) (n : nat) :
  List.length img = n ->
  Forall (fun row => List.length row = n) img ->
  shape img = (n, n).
Proof.
  intros Hn Hrows. unfold shape. rewrite Hn. f_equal.
  destruct Hrows as [|row rows Hrow _]; cbn in *; congruence.
Qed.

(** C9. For every grayscale image of [h] rows and [w] columns on which
    no face was found, the region is the centered square of side
    [min h w]: its pixel [(i, j)] is the pixel
    [((h - side) / 2 + i, (w - side) / 2 + j)] of the image.  For an
    image 200 wide and 100 high this is the 100 by 100 square that
    starts at column 50. *)
Theorem center_crop_fallback (gray : GrayImage) (h w : nat) :
  shape gray = (h, w) ->
  Forall (fun row => List.length row = w) gray ->
  let size := Nat.min h w in
  let y0 := (h - size) / 2 in
  let x0 := (w - size) / 2 in
  let roi := extract_roi gray [] in
  roi = crop gray y0 (y0 + size) x0 (x0 + size)
  /\ shape roi = (size, size)
  /\ Forall (fun row => List.length row = size) roi
  /\ (forall i j, i < size -> j < size ->
                  pixel roi i j = pixel gray (y0 + i) (x0 + j))
  /\ (h = 100 -> w = 200 ->
      shape roi = (100, 100)
      /\ forall i j, i < 100 -> j < 100 -> pixel roi i j = pixel gray i (50 + j)).
Proof.
  intros Hshape Hrows size y0 x0 roi.
  assert (Hroi : roi = crop gray y0 (y0 + size) x0 (x0 + size)).
  { unfold roi, extract_roi. rewrite Hshape. reflexivity. }
  assert (Hh : List.length gray = h) by (unfold shape in Hshape; congruence).
  assert (Hy : y0 + size <= h).
  { pose proof (half_le (h - size)). pose proof (Nat.le_min_l h w). unfold y0, size in *. lia. }
  assert (Hx : x0 + size <= w).
  { pose proof (half_le (w - size)). pose proof (Nat.le_min_r h w). unfold x0, size in *. lia. }
  assert (Hlen : List.length roi = size).
  { rewrite Hroi, crop_rows by lia. lia. }
  assert (Hcols : Forall (fun row => List.length row = size) roi).
  { pose proof (crop_columns gray w y0 (y0 + size) x0 (x0 + size) Hrows Hx) as Hc.
    replace (x0 + size - x0) with size in Hc by lia. now rewrite Hroi. }
  assert (Hpix : forall i j, i < size -> j < size ->
                             pixel roi i j = pixel gray (y0 + i) (x0 + j)).
  { intros i j Hi Hj. rewrite Hroi. apply crop_pixel; lia. }
  split; [exact Hroi|].
  split; [now apply shape_square|].
  split; [exact Hcols|].
  split; [exact Hpix|].
  intros -> ->. split; [now apply shape_square|].
  intros i j Hi Hj. exact (Hpix i j Hi Hj).
Qed.

End RoiFacts.

(** ** The classifier service and the handler *)

Section ServiceFacts.

Import ServiceFixtures.

Variable libs : Libs.
Variable path : string.

Lemma predict_mood_reaches_model (artifact : option (Sequential libs))
      (image_bytes : list Byte.byte) (roi_resized : GrayImage) (st : Process libs) :
  reaches_model libs image_bytes roi_resized ->
  predict_mood_from_image_bytes libs path artifact image_bytes st
  = match _get_model libs path artifact st with
    | (Raise e, st') => (Raise e, st')
    | (Ok model, st') =>
        match predict libs model roi_resized with
        | Raise e => (Raise e, st')
        | Ok prediction =>
            (Ok (dict_get _EMOTION_DICT (argmax (flatten prediction)) "Calm"), st')
        end
    end.
Proof.
  intros (Hne & frame & Hdec & Hres).
  unfold predict_mood_from_image_bytes. now rewrite Hne, Hdec, Hres.
Qed.

(** C8, as the code has it. For every non-empty input that decodes:
    when the region cannot be resized, the model cannot be obtained
    (the weight file is missing) or the prediction fails, the call
    raises that error and no label is returned; otherwise exactly one
    of Angry, Sad, Happy and Calm is returned, the one at the position
    [np.argmax] gives on the four output values taken in the order
    0=Angry, 1=Sad, 2=Happy, 3=Calm.  That position holds the first nan
    when one of the four values is nan; otherwise all four are numbers,
    none is greater than the one at that position and every earlier
    one is smaller, so that of equal greatest values the first gives
    the label; no value is too small to be chosen. *)
Theorem predicted_label_is_argmax
        (artifact : option (Sequential libs)) (image_bytes : list Byte.byte)
        (st : Process libs) (frame : Frame libs) :
  is_empty_bytes image_bytes = false ->
  imdecode libs image_bytes = Some frame ->
  let outcome := fst (predict_mood_from_image_bytes libs path artifact image_bytes st) in
  let gray := cvtColor libs frame in
  match resize libs (extract_roi gray (detectMultiScale libs gray)) with
  | Raise e => outcome = Raise e
  | Ok roi_resized =>
      match fst (_get_model libs path artifact st) with
      | Raise e => outcome = Raise e
      | Ok model =>
          match predict libs model roi_resized with
          | Raise e => outcome = Raise e
          | Ok prediction =>
              let values :=
                [p0 prediction; p1 prediction; p2 prediction; p3 prediction] in
              exists i name x,
                outcome = Ok name
                /\ List.nth_error ["Angry"; "Sad"; "Happy"; "Calm"] i = Some name
                /\ List.nth_error values i = Some x
                /\ match x with
                   | nan32 =>
                       forall j y,
                         j < i -> List.nth_error values j = Some y -> y <> nan32
                   | num32 q =>
                       (forall j y,
                           List.nth_error values j = Some y ->
                           exists w, y = num32 w /\ (w <= q)%Q)
                       /\ (forall j w,
                              j < i -> List.nth_error values j = Some (num32 w) ->
                              (w < q)%Q)
                   end
          end
      end
  end.
Proof.
  intros Hne Hdec outcome gray. unfold outcome, predict_mood_from_image_bytes.
  rewrite Hne, Hdec. fold gray.
  destruct (resize libs (extract_roi gray (detectMultiScale libs gray)))
    as [roi_resized|e]; [|reflexivity].
  destruct (_get_model libs path artifact st) as [[model|e] st']; cbn [fst];
    [|reflexivity].
  destruct (predict libs model roi_resized) as [prediction|e]; [|reflexivity].
  cbn [fst]. set (values := [p0 prediction; p1 prediction; p2 prediction; p3 prediction]).
  assert (Hne' : flatten prediction <> []) by discriminate.
  destruct (argmax_first_greatest _ Hne') as (x & Hx & Hmax).
  pose proof (argmax_lt_length _ Hne') as Hlt.
  change (flatten prediction) with values in *.
  exists (argmax values).
  destruct (List.nth_error labels (argmax values)) as [label|] eqn:El.
  - exists (label_name label), x. rewrite (emotion_dict_get _ _ El).
    split; [reflexivity|]. split.
    + clear - El. destruct (argmax values) as [|[|[|[|n]]]]; cbn in El |- *;
        [| | | |destruct n; discriminate]; injection El as <-; reflexivity.
    + split; [exact Hx|]. destruct x; exact Hmax.
  - apply List.nth_error_None in El. cbn in El, Hlt. lia.
Qed.

(** C3, as the code has it. When the weight file is missing, a request
    that reaches the model raises [FileNotFoundError] and leaves
    [_model] unset; nothing records the failure, so the next request
    enters [_build_model] again and fails the same way, and a request
    made once the file is there loads the model. *)
Theorem missing_weights_rebuilt_each_request
        (image_bytes : list Byte.byte) (roi_resized : GrayImage) (st : Process libs) :
  reaches_model libs image_bytes roi_resized ->
  _model libs st = None ->
  let first := predict_mood_from_image_bytes libs path None image_bytes st in
  let second := predict_mood_from_image_bytes libs path None image_bytes (snd first) in
  fst first = Raise (weights_not_found path)
  /\ _model libs (snd first) = None
  /\ build_calls libs (snd first) = S (build_calls libs st)
  /\ fst second = Raise (weights_not_found path)
  /\ _model libs (snd second) = None
  /\ build_calls libs (snd second) = S (S (build_calls libs st))
  /\ (forall model,
         _get_model libs path (Some model) (snd first)
         = (Ok model, mkProcess libs (Some model) (S (S (build_calls libs st))))).
Proof.
  intros Hreach Hnone first second.
  assert (H1 : first = (Raise (weights_not_found path),
                        mkProcess libs None (S (build_calls libs st)))).
  { unfold first. rewrite (predict_mood_reaches_model _ _ _ _ Hreach).
    unfold _get_model. now rewrite Hnone. }
  assert (H2 : second = (Raise (weights_not_found path),
                         mkProcess libs None (S (S (build_calls libs st))))).
  { unfold second. rewrite H1. cbn [snd].
    rewrite (predict_mood_reaches_model _ _ _ _ Hreach). reflexivity. }
  rewrite H2, H1. cbn. repeat split; reflexivity.
Qed.

(** C2, as the code has it. For every non-empty upload on which
    [predict_mood_from_image_bytes] raises, the handler answers with
    one [HTTPException] of status 500 whose detail is ["Failed to
    analyze image: "] followed by the message of the exception raised;
    no event is stored. *)
Theorem analysis_failure_detail
        (df : DataFrame) (artifact : option (Sequential libs)) (rs : RandomSource)
        (now : Z) (userId : string) (data : list Byte.byte) (srv : Server libs)
        (exc : exn) (st : Process libs) :
  is_empty_bytes data = false ->
  predict_mood_from_image_bytes libs path artifact data (process libs srv)
  = (Raise exc, st) ->
  detect_mood libs path df artifact rs now userId data srv
  = (HTTPException 500 ("Failed to analyze image: " ++ exn_msg exc),
     mkServer libs st (mood_events libs srv)).
Proof.
  intros Hne Hraise. unfold detect_mood. now rewrite Hne, Hraise.
Qed.

End ServiceFacts.

Section ServiceExamples.

Import Fixtures ServiceFixtures.

Lemma one_byte_reaches_model : reaches_model stub_libs one_byte [[1%Z]].
Proof. split; [reflexivity|]. exists one_byte. split; reflexivity. Defined.

Lemma predicted_label_is_argmax_witness :
  exists i name x,
    fst (predict_mood_from_image_bytes stub_libs weights_path (Some tt) one_byte
                                       (fresh_process stub_libs))
    = Ok name
    /\ List.nth_error ["Angry"; "Sad"; "Happy"; "Calm"] i = Some name
    /\ List.nth_error
         [num32 (1 # 10); num32 (4 # 10); num32 (4 # 10); num32 (1 # 10)] i
       = Some x
    /\ match x with
       | nan32 =>
           forall j y,
             j < i ->
             List.nth_error
               [num32 (1 # 10); num32 (4 # 10); num32 (4 # 10); num32 (1 # 10)] j
             = Some y -> y <> nan32
       | num32 q =>
           (forall j y,
               List.nth_error
                 [num32 (1 # 10); num32 (4 # 10); num32 (4 # 10); num32 (1 # 10)] j
               = Some y ->
               exists w, y = num32 w /\ (w <= q)%Q)
           /\ (forall j w,
                  j < i ->
                  List.nth_error
                    [num32 (1 # 10); num32 (4 # 10); num32 (4 # 10); num32 (1 # 10)] j
                  = Some (num32 w) ->
                  (w < q)%Q)
       end.
Proof.
  exact (predicted_label_is_argmax stub_libs weights_path (Some tt) one_byte
           (fresh_process stub_libs) one_byte eq_refl eq_refl).
Defined.

(** A decodable image for which no label is returned: the weight file
    is missing, and the call raises [FileNotFoundError]. *)
Lemma decodable_image_without_label :
  is_empty_bytes one_byte = false
  /\ imdecode stub_libs one_byte = Some one_byte
  /\ fst (predict_mood_from_image_bytes stub_libs weights_path None one_byte
                                        (fresh_process stub_libs))
     = Raise (weights_not_found weights_path)
  /\ forall label : string,
       fst (predict_mood_from_image_bytes stub_libs weights_path None one_byte
                                          (fresh_process stub_libs))
       <> Ok label.
Proof.
  split; [reflexivity|]. split; [reflexivity|]. split; [reflexivity|].
  intros label. discriminate.
Qed.

(** Of two equal greatest probabilities the first one gives the label. *)
Example tie_takes_first_label :
  fst (predict_mood_from_image_bytes stub_libs weights_path (Some tt) one_byte
                                     (fresh_process stub_libs))
  = Ok "Sad".
Proof. reflexivity. Qed.

(** A nan among the four values gives the label, whatever the others
    are: here the third value is nan and the first is 0.9. *)
Example nan_takes_the_label :
  predict stub_libs tt [[3%Z]]
  = Ok (mkPrediction (num32 (9 # 10)) (num32 (1 # 20)) nan32 (num32 (1 # 20)))
  /\ fst (predict_mood_from_image_bytes stub_libs weights_path (Some tt) three_bytes
                                        (fresh_process stub_libs))
     = Ok "Happy".
Proof. split; reflexivity. Qed.

Lemma missing_weights_rebuilt_each_request_witness :
  fst (predict_mood_from_image_bytes stub_libs weights_path None one_byte
                                     (fresh_process stub_libs))
  = Raise (weights_not_found weights_path)
  /\ build_calls stub_libs
       (snd (predict_mood_from_image_bytes stub_libs weights_path None one_byte
               (snd (predict_mood_from_image_bytes stub_libs weights_path None one_byte
                       (fresh_process stub_libs)))))
     = 2.
Proof.
  pose proof (missing_weights_rebuilt_each_request stub_libs weights_path one_byte
                [[1%Z]] (fresh_process stub_libs) one_byte_reaches_model eq_refl) as H.
  cbv zeta in H. destruct H as (H1 & _ & _ & _ & _ & H6 & _).
  split; [exact H1|exact H6].
Defined.

(** C3, a run the claim does not hold at: the weights are missing, the
    first request has entered [_build_model] once and failed, and the
    second request enters it again. *)
Lemma second_request_builds_again :
  build_calls stub_libs
    (snd (predict_mood_from_image_bytes stub_libs weights_path None one_byte
            (fresh_process stub_libs)))
  = 1
  /\ build_calls stub_libs
       (snd (predict_mood_from_image_bytes stub_libs weights_path None one_byte
               (snd (predict_mood_from_image_bytes stub_libs weights_path None one_byte
                       (fresh_process stub_libs)))))
     = 2
  /\ fst (predict_mood_from_image_bytes stub_libs weights_path (Some tt) one_byte
            (snd (predict_mood_from_image_bytes stub_libs weights_path None one_byte
                    (fresh_process stub_libs))))
     = Ok "Sad".
Proof. repeat split; reflexivity. Qed.

Lemma analysis_failure_detail_witness :
  detect_mood stub_libs weights_path [sunny] (Some tt) first_positions 0 "u1"
              seven_bytes fresh_server
  = (HTTPException 500 "Failed to analyze image: Graph execution error",
     mkServer stub_libs (mkProcess stub_libs (Some tt) 1) []).
Proof.
  apply (analysis_failure_detail stub_libs weights_path [sunny] (Some tt)
           first_positions 0%Z "u1" seven_bytes fresh_server
           (mkExn "InvalidArgumentError" "Graph execution error")
           (mkProcess stub_libs (Some tt) 1)).
  - reflexivity.
  - reflexivity.
Defined.

(** C2, uploads the claim does not hold at: the network fails on one,
    the weights are missing for the other; each answer carries the
    message of its cause, and the two answers differ. *)
Lemma failure_detail_exposes_cause :
  predict stub_libs tt [[7%Z]]
  = Raise (mkExn "InvalidArgumentError" "Graph execution error")
  /\ fst (detect_mood stub_libs weights_path [sunny] (Some tt) first_positions 0 "u1"
                      seven_bytes fresh_server)
     = HTTPException 500 "Failed to analyze image: Graph execution error"
  /\ fst (detect_mood stub_libs weights_path [sunny] None first_positions 0 "u1"
                      one_byte fresh_server)
     = HTTPException 500
         ("Failed to analyze image: Emotion model weights not found at "
          ++ "/srv/Model/model_weights_training_optimal.h5. "
          ++ "Make sure the 'Mood-Based-Song-Recommender-main' project (with the "
          ++ "'Model/model_weights_training_optimal.h5' file) exists under the "
          ++ "project root (EDI@).")
  /\ fst (detect_mood stub_libs weights_path [sunny] (Some tt) first_positions 0 "u1"
                      seven_bytes fresh_server)
     <> fst (detect_mood stub_libs weights_path [sunny] None first_positions 0 "u1"
                         one_byte fresh_server).
Proof.
  split; [reflexivity|]. split; [reflexivity|]. split; [reflexivity|].
  vm_compute. discriminate.
Qed.

(** A successful upload is stored and returned. *)
Example detect_mood_stores_event :
  detect_mood stub_libs weights_path [gloomy; sunny] (Some tt) first_positions 0 "u1"
              one_byte fresh_server
  = (Created 0 (mkMoodDoc "u1" "Sad" 0 [mkSong "4" "Rain" (Some "pop")
                  (Some "https://open.spotify.com/track/ABC123")]),
     mkServer stub_libs (mkProcess stub_libs (Some tt) 1)
              [mkMoodDoc "u1" "Sad" 0 [mkSong "4" "Rain" (Some "pop")
                 (Some "https://open.spotify.com/track/ABC123")]]).
Proof. vm_compute. reflexivity. Qed.

Lemma wide_image_rows : Forall (fun row => List.length row = 200) wide_image.
Proof.
  apply List.Forall_forall. intros row Hrow.
  apply List.repeat_spec in Hrow. subst row.
  now rewrite List.length_map, List.length_seq.
Defined.

Lemma center_crop_fallback_witness :
  shape (extract_roi wide_image []) = (100, 100)
  /\ forall i j, i < 100 -> j < 100 ->
                 pixel (extract_roi wide_image []) i j = pixel wide_image i (50 + j).
Proof.
  exact (proj2 (proj2 (proj2 (proj2
           (center_crop_fallback wide_image 100 200 eq_refl wide_image_rows))))
           eq_refl eq_refl).
Defined.

Example center_crop_first_pixel : pixel (extract_roi wide_image []) 0 0 = Some 50%Z.
Proof. vm_compute. reflexivity. Qed.

(** The thresholds are inclusive, the label is matched up to case, a
    missing value passes no threshold, and another label filters
    nothing. *)
Example filter_examples :
  let at_threshold := song_row "5" "Edge" "" "" 0.6 0.8 0.5 in
  let missing := song_row "6" "Void" "" "" nan nan nan in
  let df := [sunny; at_threshold; gloomy; missing] in
  _filter_df_for_mood df "HAPPY" = [sunny; at_threshold]
  /\ _filter_df_for_mood df "sad" = [gloomy]
  /\ _filter_df_for_mood df "cAlM" = [gloomy]
  /\ _filter_df_for_mood df "Angry" = [at_threshold]
  /\ _filter_df_for_mood df "Surprised" = df.
Proof. vm_compute. repeat split; reflexivity. Qed.

End ServiceExamples.

(** * Further properties *)

(** ** The pieces of a split *)

Module SplitFacts.
Import PyStr PyShape.

Lemma append_snoc (a : string) (c : ascii) (b : string) :
  (a ++ String c EmptyString) ++ b = a ++ String c b.
Proof. induction a as [|d a IH]; [reflexivity|]. cbn. now rewrite IH. Qed.

Lemma prefix_has_char (a : string) (ch : ascii) (b s : string) :
  String.prefix (a ++ String ch b) s = true -> has_char ch s = true.
Proof.
  revert s. induction a as [|x a IH]; intros [|d s]; cbn [String.append String.prefix has_char];
    try discriminate.
  - destruct (ascii_dec ch d) as [<-|]; [|discriminate].
    intros _. now rewrite Ascii.eqb_refl.
  - destruct (ascii_dec x d); [|discriminate].
    intros H. rewrite (IH s H). apply orb_true_r.
Qed.

Lemma split_go_not_nil (sep : string) (s : string) :
  forall skip cur, split_go sep skip cur s <> [].
Proof.
  induction s as [|c s IH]; intros skip cur; cbn [split_go]; [discriminate|].
  destruct skip; [|apply IH].
  destruct (String.prefix sep (String c s)); [discriminate|apply IH].
Qed.

(** The last piece is what follows the last separator: the end of the
    string, or all of it (after [cur]) when no separator is left. *)
Lemma split_go_last (sep : string) (s : string) :
  forall skip cur,
    skip = 0 \/ cur = "" ->
    last_part (split_go sep skip cur s) = cur ++ s
    \/ exists pre, s = pre ++ last_part (split_go sep skip cur s).
Proof.
  induction s as [|c s IH]; intros skip cur Hinv; cbn [split_go].
  - left. cbn. destruct cur; cbn; [reflexivity|]. f_equal.
    clear. induction cur as [|d cur IH]; [reflexivity|]. cbn. now rewrite <- IH.
  - destruct skip as [|k].
    + destruct (String.prefix sep (String c s)).
      * right.
        assert (Hl : last_part (cur :: split_go sep (String.length sep - 1) "" s)
                     = last_part (split_go sep (String.length sep - 1) "" s)).
        { unfold last_part. cbn [List.last].
          destruct (split_go sep (String.length sep - 1) "" s) eqn:E; [|reflexivity].
          now apply split_go_not_nil in E. }
        rewrite Hl.
        destruct (IH (String.length sep - 1) "" (or_intror eq_refl)) as [H|[pre H]].
        -- exists (String c ""). cbn. now rewrite H.
        -- exists (String c pre). cbn. now rewrite <- H.
      * destruct (IH 0 (cur ++ String c "") (or_introl eq_refl)) as [H|[pre H]].
        -- left. now rewrite H, append_snoc.
        -- right. exists (String c pre). cbn. now rewrite <- H.
    + destruct Hinv as [Hk | ->]; [discriminate|].
      right. destruct (IH k "" (or_intror eq_refl)) as [H|[pre H]].
      * exists (String c ""). cbn. now rewrite H.
      * exists (String c pre). cbn. now rewrite <- H.
Qed.

Lemma last_part_suffix (s sep : string) :
  exists pre, s = pre ++ last_part (split s sep).
Proof.
  unfold split. destruct (split_go_last sep s 0 "" (or_introl eq_refl)) as [H|H].
  - exists "". now rewrite H.
  - exact H.
Qed.

Lemma last_part_no_trailing_space (s sep : string) :
  ends_with_space s = false -> ends_with_space (last_part (split s sep)) = false.
Proof.
  intros H. destruct (last_part_suffix s sep) as [pre E].
  rewrite E in H. exact (PyShapeFacts.suffix_no_trailing_space _ _ H).
Qed.

(** A text without a colon holds no [spotify:track:]. *)
Lemma split_go_no_colon (s : string) :
  forall cur,
    has_char ":" s = false ->
    split_go "spotify:track:" 0 cur s = [cur ++ s].
Proof.
  induction s as [|c s IH]; intros cur H; cbn [split_go].
  - f_equal. clear. induction cur as [|d cur IH]; [reflexivity|]. cbn. now rewrite <- IH.
  - destruct (String.prefix "spotify:track:" (String c s)) eqn:E.
    + apply (prefix_has_char "spotify" ":" "track:") in E. congruence.
    + cbn [has_char] in H. apply orb_false_iff in H as [_ H].
      now rewrite (IH _ H), append_snoc.
Qed.

Lemma split_go_skip (sep : string) (a : string) :
  forall cur s, split_go sep (String.length a) cur (a ++ s) = split_go sep 0 cur s.
Proof. induction a as [|c a IH]; intros cur s; [reflexivity|]. cbn. apply IH. Qed.

Lemma split_go_match (sep : string) (c : ascii) (s cur : string) :
  String.prefix sep (String c s) = true ->
  split_go sep 0 cur (String c s)
  = cur :: split_go sep (String.length sep - 1) "" s.
Proof. intros H. cbn [split_go]. now rewrite H. Qed.

Lemma split_spotify_id (id : string) :
  has_char ":" id = false ->
  last_part (split ("spotify:track:" ++ id) "spotify:track:") = id.
Proof.
  intros H. unfold split.
  change ("spotify:track:" ++ id) with (String "s" ("potify:track:" ++ id)).
  rewrite split_go_match by (destruct id; reflexivity).
  change (String.length "spotify:track:" - 1) with (String.length "potify:track:").
  rewrite split_go_skip, (split_go_no_colon id "" H). reflexivity.
Qed.

End SplitFacts.

(** ** More on the descriptors *)

Section DescriptorShape.

Import PyShape Fixtures.

Lemma recommend_song_from_row (df : DataFrame) (rs : RandomSource) (mood : string)
      (limit : Z) (songs : list Song) (song : Song) :
  recommend_songs_for_mood df rs mood limit = Ok songs ->
  In song songs ->
  exists rows row,
    chosen_rows df rs mood limit = Ok rows
    /\ In row rows /\ In row df /\ song_of_row row = Some song.
Proof.
  unfold recommend_songs_for_mood.
  destruct (chosen_rows df rs mood limit) as [rows|e] eqn:Hc; cbn [bind]; [|discriminate].
  intros [= <-] Hin.
  destruct (build_songs_In rows song Hin) as (row & Hrow & Hsong).
  exists rows, row. repeat split; auto. eapply chosen_rows_incl; eauto.
Qed.

(** X1. The name of every descriptor returned is not empty and has no
    whitespace at its start or at its end: it is what is left of the
    name of a row of the table once the whitespace at both ends is
    taken off, the whitespace being Python's, which the no-break space
    is part of. *)
Theorem descriptor_name_is_trimmed (df : DataFrame) (rs : RandomSource)
        (mood : string) (limit : Z) (songs : list Song) (song : Song) :
  recommend_songs_for_mood df rs mood limit = Ok songs ->
  In song songs ->
  song_name song <> ""
  /\ starts_with_space (song_name song) = false
  /\ ends_with_space (song_name song) = false
  /\ exists row lead trail,
      In row df
      /\ song_of_row row = Some song
      /\ Blank lead /\ Blank trail
      /\ name_text row = lead ++ song_name song ++ trail.
Proof.
  intros Hr Hin.
  destruct (recommend_song_from_row _ _ _ _ _ _ Hr Hin) as (rows & row & _ & _ & Hdf & Hs).
  destruct (song_of_row_name row song Hs) as (Hname & Hne & _).
  split; [exact Hne|]. rewrite Hname. unfold display_name.
  split; [apply PyShapeFacts.strip_no_leading_space|].
  split; [apply PyShapeFacts.strip_no_trailing_space|].
  fold (name_text row).
  destruct (PyShapeFacts.strip_decompose (name_text row)) as (lead & trail & Hl & Ht & E).
  exists row, lead, trail. auto.
Qed.

Lemma descriptor_name_is_trimmed_witness :
  song_name padded_song <> ""
  /\ starts_with_space (song_name padded_song) = false
  /\ ends_with_space (song_name padded_song) = false
  /\ exists row lead trail,
      In row [gloomy; padded]
      /\ song_of_row row = Some padded_song
      /\ Blank lead /\ Blank trail
      /\ name_text row = lead ++ song_name padded_song ++ trail.
Proof.
  apply (descriptor_name_is_trimmed [gloomy; padded] first_positions "Happy" 10%Z
                                    [padded_song] padded_song).
  - vm_compute. reflexivity.
  - left. reflexivity.
Defined.

(** X2. The genre of a descriptor, when it has one, is not empty and is
    what is left of the text of the row's genre cell once Python's
    whitespace is taken off at both ends; there is no genre exactly
    when the cell holds no string (a missing value) or a blank one. *)
Theorem descriptor_genre_is_text (df : DataFrame) (rs : RandomSource)
        (mood : string) (limit : Z) (songs : list Song) (song : Song) :
  recommend_songs_for_mood df rs mood limit = Ok songs ->
  In song songs ->
  exists row,
    In row df
    /\ song_of_row row = Some song
    /\ (forall g, song_genre song = Some g ->
                  g <> ""
                  /\ starts_with_space g = false
                  /\ ends_with_space g = false
                  /\ exists s lead trail,
                      row_get (col_genre row) PyNone = Str s
                      /\ g = PyStr.strip s
                      /\ Blank lead /\ Blank trail
                      /\ s = lead ++ g ++ trail)
    /\ (song_genre song = None
        <-> match row_get (col_genre row) PyNone with
            | Str s => Blank s
            | Other _ _ => True
            end).
Proof.
  intros Hr Hin.
  destruct (recommend_song_from_row _ _ _ _ _ _ Hr Hin) as (rows & row & _ & _ & Hdf & Hs).
  exists row. split; [exact Hdf|]. split; [exact Hs|].
  unfold song_of_row in Hs.
  destruct (String.eqb (display_name row) ""); [discriminate|].
  injection Hs as <-. cbn [song_genre].
  destruct (row_get (col_genre row) PyNone) as [s|b t].
  - unfold or_None.
    destruct (String.eqb_spec (PyStr.strip s) "") as [E|Hne].
    + split; [discriminate|]. split; [intros _|reflexivity].
      now apply PyShapeFacts.strip_empty_iff.
    + split.
      * intros g [= <-].
        split; [exact Hne|].
        split; [apply PyShapeFacts.strip_no_leading_space|].
        split; [apply PyShapeFacts.strip_no_trailing_space|].
        destruct (PyShapeFacts.strip_decompose s) as (lead & trail & Hl & Ht & E).
        exists s, lead, trail. auto.
      * split; [discriminate|]. intros Hb.
        apply PyShapeFacts.strip_empty_iff in Hb. contradiction.
  - split; [discriminate|]. split; auto.
Qed.

Lemma descriptor_genre_is_text_witness :
  exists row,
    In row [gloomy; jazzy]
    /\ song_of_row row = Some jazzy_song
    /\ (forall g, song_genre jazzy_song = Some g ->
                  g <> ""
                  /\ starts_with_space g = false
                  /\ ends_with_space g = false
                  /\ exists s lead trail,
                      row_get (col_genre row) PyNone = Str s
                      /\ g = PyStr.strip s
                      /\ Blank lead /\ Blank trail
                      /\ s = lead ++ g ++ trail)
    /\ (song_genre jazzy_song = None
        <-> match row_get (col_genre row) PyNone with
            | Str s => Blank s
            | Other _ _ => True
            end).
Proof.
  apply (descriptor_genre_is_text [gloomy; jazzy] first_positions "Happy" 10%Z
                                  [jazzy_song] jazzy_song).
  - vm_compute. reflexivity.
  - left. reflexivity.
Defined.

(** The no-break space is trimmed like the space: a genre of nothing
    else gives no genre, and a genre wrapped in both is unwrapped. *)
Example padded_genre_is_trimmed :
  song_of_row padded = Some padded_song
  /\ song_of_row jazzy = Some jazzy_song.
Proof. split; vm_compute; reflexivity. Qed.

(** X3. When a row falls back to the search link, what follows
    [search_query=] holds only letters, digits, [_ . - ~], [+] and [%],
    whatever the name and the artist hold. *)
Theorem search_link_is_quoted (row : Row) (song : Song) :
  song_of_row row = Some song ->
  is_http (trimmed_uri row) = false ->
  PyStr.startswith (trimmed_uri row) "spotify:track:" = false ->
  exists query,
    song_uri song = Some ("https://www.youtube.com/results?search_query=" ++ query)
    /\ all_chars url_safe query = true
    /\ query = PyStr.quote_plus
                 (PyStr.strip (song_name song ++ " "
                               ++ str (row_get (col_artist row) (Str "")))).
Proof.
  intros Hs H1 H2.
  destruct (song_of_row_name row song Hs) as (Hname & _ & Huri).
  rewrite (resolve_uri_fallback_case row _ H1 H2) in Huri.
  exists (PyStr.quote_plus
            (PyStr.strip (song_name song ++ " " ++ str (row_get (col_artist row) (Str ""))))).
  split.
  - rewrite Huri, Hname. reflexivity.
  - split; [apply PyShapeFacts.quote_plus_url_safe|reflexivity].
Qed.

Lemma search_link_is_quoted_witness :
  exists query,
    song_uri sunny_song = Some ("https://www.youtube.com/results?search_query=" ++ query)
    /\ all_chars url_safe query = true
    /\ query = PyStr.quote_plus
                 (PyStr.strip (song_name sunny_song ++ " "
                               ++ str (row_get (col_artist sunny) (Str "")))).
Proof.
  apply (search_link_is_quoted sunny sunny_song); vm_compute; reflexivity.
Defined.

(** X4. When the trimmed [uri] cell is [spotify:track:] followed by an
    id without a colon, the link is the web address of exactly that id. *)
Theorem spotify_link_keeps_id (row : Row) (song : Song) (id : string) :
  song_of_row row = Some song ->
  trimmed_uri row = "spotify:track:" ++ id ->
  has_char ":" id = false ->
  song_uri song = Some ("https://open.spotify.com/track/" ++ id).
Proof.
  intros Hs Ht Hid.
  destruct (song_of_row_name row song Hs) as (_ & _ & Huri).
  assert (Hp : PyStr.startswith (trimmed_uri row) "spotify:track:" = true).
  { rewrite Ht. destruct id; reflexivity. }
  rewrite (resolve_uri_spotify_case row _ Hp) in Huri.
  unfold spotify_web in Huri. rewrite Ht, (SplitFacts.split_spotify_id id Hid) in Huri.
  exact Huri.
Qed.

Lemma spotify_link_keeps_id_witness :
  song_uri (mkSong "4" "Rain" (Some "pop") (Some "https://open.spotify.com/track/ABC123"))
  = Some ("https://open.spotify.com/track/" ++ "ABC123").
Proof.
  apply (spotify_link_keeps_id gloomy _ "ABC123"); vm_compute; reflexivity.
Defined.

Lemma resolve_uri_fixed_by_strip (row : Row) (name : string) :
  PyStr.strip (resolve_uri row name) = resolve_uri row name.
Proof.
  apply PyShapeFacts.strip_fixed.
  - pose proof (resolve_uri_is_http row name) as H.
    destruct (resolve_uri row name) as [|c u]; [reflexivity|].
    unfold is_http, PyStr.startswith in H. cbn [String.prefix] in H.
    destruct (ascii_dec "h" c) as [<-|]; [reflexivity|discriminate H].
  - assert (Ht : ends_with_space (trimmed_uri row) = false).
    { unfold trimmed_uri, stripped_if_str.
      destruct (row_get (col_uri row) PyNone);
        [apply PyShapeFacts.strip_no_trailing_space|reflexivity]. }
    destruct (is_http (trimmed_uri row)) eqn:H1.
    + now rewrite resolve_uri_http_case.
    + destruct (PyStr.startswith (trimmed_uri row) "spotify:track:") eqn:H2.
      * rewrite resolve_uri_spotify_case by assumption. unfold spotify_web.
        apply PyShapeFacts.ends_with_space_after_plain; [reflexivity|].
        now apply SplitFacts.last_part_no_trailing_space.
      * rewrite resolve_uri_fallback_case by assumption. unfold youtube_search.
        apply PyShapeFacts.plain_no_trailing_space.
        rewrite PyShapeFacts.all_chars_app. apply andb_true_iff. split; [reflexivity|].
        apply (PyShapeFacts.all_chars_impl url_safe plain _ PyShapeFacts.url_safe_plain).
        apply PyShapeFacts.quote_plus_url_safe.
Qed.

(** X5. A resolved link is a fixed point of the resolution: a row whose
    [uri] cell holds the link of a descriptor gets that same link,
    whatever its name and artist are. *)
Theorem resolved_link_is_stable (row : Row) (song : Song) (uri : string)
        (stored : Row) (name : string) :
  song_of_row row = Some song ->
  song_uri song = Some uri ->
  col_uri stored = Some (Str uri) ->
  resolve_uri stored name = uri.
Proof.
  intros Hs Hu Hstored.
  destruct (song_of_row_name row song Hs) as (_ & _ & Huri).
  pose proof (resolve_uri_is_http row (display_name row)) as Hhttp.
  unfold or_None in Huri. rewrite (is_http_not_empty _ Hhttp) in Huri.
  assert (E : uri = resolve_uri row (display_name row)) by congruence.
  assert (Ht : trimmed_uri stored = uri).
  { unfold trimmed_uri. rewrite Hstored. cbn [row_get stripped_if_str].
    rewrite E. apply resolve_uri_fixed_by_strip. }
  rewrite resolve_uri_http_case; rewrite Ht; [reflexivity|now rewrite E].
Qed.

Lemma resolved_link_is_stable_witness :
  resolve_uri
    (song_row "9" "Other" "Someone"
              "https://www.youtube.com/results?search_query=Sunny+Day+Test+Artist"
              0.5 0.5 0.5)
    "Other"
  = "https://www.youtube.com/results?search_query=Sunny+Day+Test+Artist".
Proof.
  apply (resolved_link_is_stable sunny sunny_song); vm_compute; reflexivity.
Defined.

(** X6. The title is read only when [song_name] is falsy.  A missing
    [song_name] (the float nan) is truthy: the row is not skipped, its
    descriptor is named ["nan"] whatever the title holds; a [song_name]
    of nothing but whitespace makes the row skipped although it may have
    a title. *)
Theorem song_name_shadows_title (row : Row) :
  (col_song_name row = Some NaN ->
   exists song, song_of_row row = Some song /\ song_name song = "nan")
  /\ (forall s, col_song_name row = Some (Str s) ->
                s <> "" -> PyStr.strip s = "" -> song_of_row row = None)
  /\ (truthy (row_get (col_song_name row) PyNone) = false ->
      display_name row = PyStr.strip (str (py_or (row_get (col_title row) PyNone) (Str "")))).
Proof.
  split; [|split].
  - intros H. unfold song_of_row, display_name. rewrite H. cbn.
    eexists. split; reflexivity.
  - intros s H Hne Hs. unfold song_of_row, display_name. rewrite H.
    cbn [row_get]. unfold py_or at 2. cbn [truthy].
    destruct (String.eqb_spec s "") as [|_]; [contradiction|]. cbn [negb].
    unfold py_or. cbn [truthy].
    destruct (String.eqb_spec s "") as [|_]; [contradiction|]. cbn [negb str].
    now rewrite Hs.
  - intros H. unfold display_name. unfold py_or at 2. now rewrite H.
Qed.

Lemma song_name_shadows_title_witness :
  song_of_row (mkRow (Some (Str "7")) (Some (Str "  ")) (Some (Str "Real Title"))
                     None None None 0.5 0.5 0.5)
  = None.
Proof.
  apply (proj1 (proj2 (song_name_shadows_title
                         (mkRow (Some (Str "7")) (Some (Str "  ")) (Some (Str "Real Title"))
                                None None None 0.5 0.5 0.5))) "  ").
  - reflexivity.
  - discriminate.
  - reflexivity.
Defined.

End DescriptorShape.

(** ** More on the recommendation engine *)

Section RecommendMore.

Import Fixtures.

Lemma build_songs_complete (rows : DataFrame) (row : Row) (song : Song) :
  In row rows -> song_of_row row = Some song -> In song (build_songs rows).
Proof.
  induction rows as [|r rows IH]; [contradiction|].
  intros [->|Hin] Hs; cbn [build_songs].
  - rewrite Hs. now left.
  - destruct (song_of_row r); [right|]; auto.
Qed.

Lemma chosen_rows_in_candidates (df : DataFrame) (rs : RandomSource) (mood : string)
      (limit : Z) (rows : DataFrame) (row : Row) :
  chosen_rows df rs mood limit = Ok rows -> In row rows -> In row (candidates df mood).
Proof.
  unfold chosen_rows, sample.
  destruct (Z.of_nat (List.length (candidates df mood)) >? limit)%Z.
  - destruct (limit <? 0)%Z; [discriminate|].
    destruct (Z.of_nat (List.length (candidates df mood)) <? limit)%Z; [discriminate|].
    intros [= <-]. apply take_incl.
  - now intros [= <-].
Qed.

Lemma filter_df_for_label (df : DataFrame) (mood : string) (l : MoodLabel) :
  PyStr.lower mood = PyStr.lower (label_name l) ->
  _filter_df_for_mood df mood = select (passes l) df.
Proof.
  intros H. unfold _filter_df_for_mood. rewrite H. now destruct l.
Qed.

(** X7. When the candidate subset has at most [limit] rows nothing is
    drawn: the answer does not depend on the random source, it is the
    descriptors of the candidates in table order, and every candidate
    with a display name has its descriptor in it. *)
Theorem all_candidates_within_limit (df : DataFrame) (rs : RandomSource)
        (mood : string) (limit : Z) :
  (Z.of_nat (List.length (candidates df mood)) <= limit)%Z ->
  recommend_songs_for_mood df rs mood limit = Ok (build_songs (candidates df mood))
  /\ forall row, In row (candidates df mood) -> has_name row = true ->
                 exists song, song_of_row row = Some song
                              /\ In song (build_songs (candidates df mood)).
Proof.
  intros H. split.
  - unfold recommend_songs_for_mood, chosen_rows.
    destruct (Z.gtb_spec (Z.of_nat (List.length (candidates df mood))) limit); [lia|].
    reflexivity.
  - intros row Hin Hn.
    destruct (song_of_row row) as [song|] eqn:E.
    + exists song. split; [reflexivity|]. eapply build_songs_complete; eauto.
    + apply song_of_row_None in E. congruence.
Qed.

Lemma all_candidates_within_limit_witness :
  recommend_songs_for_mood [sunny; blank; linked; gloomy] first_positions "sad" 10
  = Ok (build_songs (candidates [sunny; blank; linked; gloomy] "sad"))
  /\ forall row, In row (candidates [sunny; blank; linked; gloomy] "sad") ->
                 has_name row = true ->
                 exists song, song_of_row row = Some song
                              /\ In song (build_songs (candidates [sunny; blank; linked; gloomy] "sad")).
Proof.
  apply (all_candidates_within_limit [sunny; blank; linked; gloomy] first_positions "sad" 10%Z).
  vm_compute. discriminate.
Defined.

(** X8. When the mood is one of the four labels (in any case) and some
    row passes its threshold test, every descriptor returned comes from
    a row that passes the test. *)
Theorem descriptors_pass_mood_test (df : DataFrame) (rs : RandomSource)
        (mood : string) (limit : Z) (l : MoodLabel) (songs : list Song) (song : Song) :
  PyStr.lower mood = PyStr.lower (label_name l) ->
  (exists row, In row df /\ passes l row = true) ->
  recommend_songs_for_mood df rs mood limit = Ok songs ->
  In song songs ->
  exists row, In row df /\ passes l row = true /\ song_of_row row = Some song.
Proof.
  intros Hl (r & Hr & Hp) Hrec Hin.
  destruct (recommend_song_from_row _ _ _ _ _ _ Hrec Hin) as (rows & row & Hc & Hrow & Hdf & Hs).
  exists row. split; [exact Hdf|]. split; [|exact Hs].
  pose proof (chosen_rows_in_candidates _ _ _ _ _ _ Hc Hrow) as Hcand.
  unfold candidates in Hcand. rewrite (filter_df_for_label df mood l Hl) in Hcand.
  assert (Hsel : In r (select (passes l) df)).
  { unfold select. apply List.filter_In. now split. }
  destruct (select (passes l) df) as [|x xs] eqn:E; [contradiction|].
  cbn [empty] in Hcand. rewrite <- E in Hcand.
  unfold select in Hcand. now apply List.filter_In in Hcand.
Qed.

Lemma descriptors_pass_mood_test_witness :
  exists row,
    In row [gloomy; sunny] /\ passes Happy row = true /\ song_of_row row = Some sunny_song.
Proof.
  apply (descriptors_pass_mood_test [gloomy; sunny] first_positions "HAPPY" 10%Z Happy
                                    [sunny_song] sunny_song).
  - reflexivity.
  - exists sunny. split; [right; left; reflexivity|vm_compute; reflexivity].
  - vm_compute. reflexivity.
  - left. reflexivity.
Defined.

(** X9. With [limit = 0] the list returned is empty, for every table,
    mood and random source. *)
Theorem zero_limit_returns_nothing (df : DataFrame) (rs : RandomSource) (mood : string) :
  recommend_songs_for_mood df rs mood 0 = Ok [].
Proof.
  pose proof (chosen_rows_spec df rs mood 0%Z (Z.le_refl 0)) as H. cbv zeta in H.
  unfold recommend_songs_for_mood.
  destruct (Z.gtb_spec (Z.of_nat (List.length (candidates df mood))) 0) as [Hgt|Hle].
  - destruct H as (positions & -> & Hn & _). cbn [bind].
    destruct positions; [reflexivity|discriminate Hn].
  - rewrite H. cbn [bind].
    destruct (candidates df mood); [reflexivity|cbn in Hle; lia].
Qed.

(** X10. A negative [limit] makes the call raise the [ValueError] of
    [sample], for every table (an empty one too), mood and random
    source: no list is returned. *)
Theorem negative_limit_raises (df : DataFrame) (rs : RandomSource)
        (mood : string) (limit : Z) :
  (limit < 0)%Z ->
  recommend_songs_for_mood df rs mood limit
  = Raise (ValueError "A negative number of rows requested. Please provide `n` >= 0.")
  /\ forall songs, recommend_songs_for_mood df rs mood limit <> Ok songs.
Proof.
  intros H.
  assert (E : recommend_songs_for_mood df rs mood limit
              = Raise (ValueError
                         "A negative number of rows requested. Please provide `n` >= 0.")).
  { unfold recommend_songs_for_mood, chosen_rows, sample.
    destruct (Z.gtb_spec (Z.of_nat (List.length (candidates df mood))) limit); [|lia].
    destruct (Z.ltb_spec limit 0); [reflexivity|lia]. }
  split; [exact E|]. intros songs. rewrite E. discriminate.
Qed.

Lemma negative_limit_raises_witness :
  recommend_songs_for_mood [] first_positions "Calm" (-3)
  = Raise (ValueError "A negative number of rows requested. Please provide `n` >= 0.")
  /\ forall songs, recommend_songs_for_mood [] first_positions "Calm" (-3) <> Ok songs.
Proof.
  apply (negative_limit_raises [] first_positions "Calm" (-3)%Z). lia.
Defined.

Lemma take_NoDup (positions : list nat) (df : DataFrame) :
  NoDup df -> NoDup positions -> NoDup (take positions df).
Proof.
  intros Hdf. induction 1 as [|p ps Hp _ IH]; [constructor|].
  unfold take in *. cbn [List.flat_map].
  destruct (List.nth_error df p) as [row|] eqn:E; [|exact IH].
  cbn [List.app]. constructor; [|exact IH].
  intros Hin. apply List.in_flat_map in Hin as (j & Hj & Hrow).
  destruct (List.nth_error df j) as [row'|] eqn:E'; [|contradiction].
  destruct Hrow as [->|[]].
  assert (p = j).
  { apply (proj1 (List.NoDup_nth_error df) Hdf).
    - apply List.nth_error_Some. congruence.
    - congruence. }
  subst j. contradiction.
Qed.

Lemma candidates_NoDup (df : DataFrame) (mood : string) :
  NoDup df -> NoDup (candidates df mood).
Proof.
  intros H. unfold candidates.
  destruct (empty (_filter_df_for_mood df mood)); [exact H|].
  unfold _filter_df_for_mood, select.
  repeat match goal with
         | |- context [if ?b then _ else _] => destruct b
         end; first [exact H | now apply List.NoDup_filter].
Qed.

(** X11. The rows turned into descriptors are the rows [chosen_rows]
    gives; they are candidates, exactly [limit] of them when the
    candidates exceed the limit and a sample is drawn, and no table row
    is used twice: when the table has no repeated row, neither have the
    rows the loop runs over. *)
Theorem sampled_rows_are_distinct (df : DataFrame) (rs : RandomSource)
        (mood : string) (limit : Z) (songs : list Song) :
  NoDup df ->
  recommend_songs_for_mood df rs mood limit = Ok songs ->
  exists rows,
    chosen_rows df rs mood limit = Ok rows
    /\ NoDup rows
    /\ (forall row, In row rows -> In row (candidates df mood))
    /\ ((Z.of_nat (List.length (candidates df mood)) > limit)%Z ->
        rows = take (choice rs (List.length (candidates df mood)) (Z.to_nat limit))
                    (candidates df mood)
        /\ List.length rows = Z.to_nat limit)
    /\ songs = build_songs rows.
Proof.
  intros Hdf. unfold recommend_songs_for_mood.
  destruct (chosen_rows df rs mood limit) as [rows|e] eqn:Hc; cbn [bind]; [|discriminate].
  intros [= <-]. exists rows. split; [reflexivity|].
  split; [|split; [|split; [|reflexivity]]].
  - pose proof (candidates_NoDup df mood Hdf) as Hcand.
    unfold chosen_rows, sample in Hc.
    destruct (Z.gtb_spec (Z.of_nat (List.length (candidates df mood))) limit) as [Hgt|Hle].
    + destruct (Z.ltb_spec limit 0); [discriminate|].
      destruct (Z.ltb_spec (Z.of_nat (List.length (candidates df mood))) limit);
        [discriminate|].
      injection Hc as <-. apply take_NoDup; [exact Hcand|].
      apply choice_distinct. lia.
    + now injection Hc as <-.
  - intros row. now apply chosen_rows_in_candidates with (rs := rs) (limit := limit).
  - intros Hgt. unfold chosen_rows, sample in Hc.
    destruct (Z.gtb_spec (Z.of_nat (List.length (candidates df mood))) limit); [|lia].
    destruct (Z.ltb_spec limit 0); [discriminate|].
    destruct (Z.ltb_spec (Z.of_nat (List.length (candidates df mood))) limit);
      [discriminate|].
    injection Hc as <-. split; [reflexivity|].
    rewrite take_length by (apply choice_range; lia).
    apply choice_size. lia.
Qed.

(** Three rows pass the Happy test and two are asked for: the draw of
    the positions 2 and 0 gives the third candidate, then the first. *)
Lemma sampled_rows_are_distinct_witness :
  (Z.of_nat (List.length (candidates [sunny; blank; linked; gloomy] "Happy")) > 2)%Z
  /\ exists rows,
      chosen_rows [sunny; blank; linked; gloomy] (draw_source [2; 0]) "Happy" 2 = Ok rows
      /\ NoDup rows
      /\ (forall row,
             In row rows -> In row (candidates [sunny; blank; linked; gloomy] "Happy"))
      /\ ((Z.of_nat (List.length (candidates [sunny; blank; linked; gloomy] "Happy")) > 2)%Z ->
          rows = take (choice (draw_source [2; 0])
                              (List.length (candidates [sunny; blank; linked; gloomy] "Happy"))
                              (Z.to_nat 2))
                      (candidates [sunny; blank; linked; gloomy] "Happy")
          /\ List.length rows = Z.to_nat 2)
      /\ [linked_song; sunny_song] = build_songs rows.
Proof.
  split; [reflexivity|].
  apply (sampled_rows_are_distinct [sunny; blank; linked; gloomy] (draw_source [2; 0])
           "Happy" 2%Z).
  - repeat (constructor;
            [cbn; intros H; repeat (destruct H as [H|H]; [discriminate H|]); exact H|]).
    constructor.
  - vm_compute. reflexivity.
Defined.

(** The rows that draw takes, and that another draw takes others. *)
Example sampled_rows_example :
  chosen_rows [sunny; blank; linked; gloomy] (draw_source [2; 0]) "Happy" 2
  = Ok [linked; sunny]
  /\ chosen_rows [sunny; blank; linked; gloomy] (draw_source [1; 2]) "Happy" 2
     = Ok [blank; linked].
Proof. split; vm_compute; reflexivity. Qed.

End RecommendMore.

(** ** More on the classifier service *)

Section ServiceMore.

Import ServiceFixtures.

Variable libs : Libs.
Variable path : string.

Lemma predict_mood_keeps_loaded_model (artifact : option (Sequential libs))
      (image_bytes : list Byte.byte) (st : Process libs) (model : Sequential libs) :
  _model libs st = Some model ->
  snd (predict_mood_from_image_bytes libs path artifact image_bytes st) = st.
Proof.
  intros H. unfold predict_mood_from_image_bytes, _get_model. rewrite H.
  destruct (is_empty_bytes image_bytes); [reflexivity|].
  destruct (imdecode libs image_bytes); [|reflexivity].
  destruct (resize libs _); [|reflexivity].
  destruct (predict libs model _); reflexivity.
Qed.

(** X12. Once the model is loaded it is never built again nor replaced:
    a request leaves the module state as it is and gets the loaded
    model, whatever the weight file has become (missing, or other
    weights); so the state is the same after any sequence of requests. *)
Theorem loaded_model_is_kept
        (requests : list (option (Sequential libs) * list Byte.byte))
        (artifact : option (Sequential libs)) (image_bytes : list Byte.byte)
        (st : Process libs) (model : Sequential libs) :
  _model libs st = Some model ->
  _get_model libs path artifact st = (Ok model, st)
  /\ snd (predict_mood_from_image_bytes libs path artifact image_bytes st) = st
  /\ snd (serve libs path requests st) = st.
Proof.
  intros H. split; [|split].
  - unfold _get_model. now rewrite H.
  - now apply predict_mood_keeps_loaded_model with (model := model).
  - clear artifact image_bytes.
    induction requests as [|[artifact image_bytes] rest IH]; [reflexivity|].
    cbn [serve].
    pose proof (predict_mood_keeps_loaded_model artifact image_bytes st model H) as Hst.
    destruct (predict_mood_from_image_bytes libs path artifact image_bytes st) as [r st'].
    cbn [snd] in Hst. subst st'.
    destruct (serve libs path rest st) as [rs st'']. cbn [snd] in *. exact IH.
Qed.

(** X13. A request that does not get as far as the model (empty bytes,
    bytes that do not decode, a region that cannot be resized) raises
    and leaves the module state as it was: no model is built for it. *)
Theorem no_build_before_the_model
        (artifact : option (Sequential libs)) (image_bytes : list Byte.byte)
        (st : Process libs) :
  (forall roi_resized, ~ reaches_model libs image_bytes roi_resized) ->
  exists e,
    predict_mood_from_image_bytes libs path artifact image_bytes st = (Raise e, st)
    /\ (is_empty_bytes image_bytes = true -> e = ValueError "Empty image bytes.")
    /\ (is_empty_bytes image_bytes = false ->
        imdecode libs image_bytes = None ->
        e = ValueError "Could not decode image data.").
Proof.
  intros Hno. unfold predict_mood_from_image_bytes.
  destruct (is_empty_bytes image_bytes) eqn:He.
  { eexists. split; [reflexivity|]. split; [reflexivity|discriminate]. }
  destruct (imdecode libs image_bytes) as [frame|] eqn:Hd.
  - destruct (resize libs (extract_roi (cvtColor libs frame)
                                       (detectMultiScale libs (cvtColor libs frame))))
      as [roi|e] eqn:Hr.
    + exfalso. apply (Hno roi). split; [exact He|]. exists frame. now split.
    + exists e. split; [reflexivity|]. split; discriminate.
  - eexists. split; [reflexivity|]. split; [discriminate|reflexivity].
Qed.

(** X14. Whenever [predict_mood_from_image_bytes] returns, what it
    returns is the name of one of the four labels, and the model is
    loaded afterwards. *)
Theorem returned_mood_is_a_label
        (artifact : option (Sequential libs)) (image_bytes : list Byte.byte)
        (st : Process libs) (mood : string) :
  fst (predict_mood_from_image_bytes libs path artifact image_bytes st) = Ok mood ->
  (exists l, mood = label_name l)
  /\ exists model,
      _model libs (snd (predict_mood_from_image_bytes libs path artifact image_bytes st))
      = Some model.
Proof.
  unfold predict_mood_from_image_bytes.
  destruct (is_empty_bytes image_bytes); [discriminate|].
  destruct (imdecode libs image_bytes) as [frame|]; [|discriminate].
  destruct (resize libs _) as [roi|e]; [|discriminate].
  assert (Hm : forall r st', _get_model libs path artifact st = (Ok r, st') ->
                             _model libs st' = Some r).
  { unfold _get_model. destruct (_model libs st) as [m|] eqn:E.
    - intros r st' [= <- <-]. exact E.
    - destruct (_build_model libs path artifact); [|discriminate].
      intros r st' [= <- <-]. reflexivity. }
  destruct (_get_model libs path artifact st) as [[model|e] st']; [|discriminate].
  specialize (Hm model st' eq_refl).
  destruct (predict libs model roi) as [prediction|e]; [|discriminate].
  cbn [fst snd]. intros [= <-]. split; [|now exists model].
  assert (Hne : flatten prediction <> []) by discriminate.
  pose proof (argmax_lt_length _ Hne) as Hlt.
  destruct (List.nth_error labels (argmax (flatten prediction))) as [l|] eqn:El.
  - exists l. now apply emotion_dict_get.
  - apply List.nth_error_None in El. cbn in El, Hlt. lia.
Qed.

End ServiceMore.

Section ServiceMoreExamples.

Import ServiceFixtures.

Lemma loaded_model_is_kept_witness :
  _get_model stub_libs weights_path None (mkProcess stub_libs (Some tt) 1)
  = (Ok tt, mkProcess stub_libs (Some tt) 1)
  /\ snd (predict_mood_from_image_bytes stub_libs weights_path None one_byte
                                        (mkProcess stub_libs (Some tt) 1))
     = mkProcess stub_libs (Some tt) 1
  /\ snd (serve stub_libs weights_path
                [(None, one_byte); (Some tt, seven_bytes); (None, [])]
                (mkProcess stub_libs (Some tt) 1))
     = mkProcess stub_libs (Some tt) 1.
Proof.
  apply (loaded_model_is_kept stub_libs weights_path
           [(None, one_byte); (Some tt, seven_bytes); (None, [])]
           None one_byte (mkProcess stub_libs (Some tt) 1) tt).
  reflexivity.
Defined.

Lemma no_build_before_the_model_witness :
  exists e,
    predict_mood_from_image_bytes stub_libs weights_path None [Byte.x00]
                                  (fresh_process stub_libs)
    = (Raise e, fresh_process stub_libs)
    /\ (is_empty_bytes [Byte.x00] = true -> e = ValueError "Empty image bytes.")
    /\ (is_empty_bytes [Byte.x00] = false ->
        imdecode stub_libs [Byte.x00] = None ->
        e = ValueError "Could not decode image data.").
Proof.
  apply (no_build_before_the_model stub_libs weights_path None [Byte.x00]
                                   (fresh_process stub_libs)).
  intros roi (_ & frame & Hd & _). discriminate Hd.
Defined.

Lemma returned_mood_is_a_label_witness :
  (exists l, "Sad" = label_name l)
  /\ exists model,
      _model stub_libs
        (snd (predict_mood_from_image_bytes stub_libs weights_path (Some tt) one_byte
                                            (fresh_process stub_libs)))
      = Some model.
Proof.
  apply (returned_mood_is_a_label stub_libs weights_path (Some tt) one_byte
                                  (fresh_process stub_libs) "Sad").
  reflexivity.
Defined.

End ServiceMoreExamples.

(** ** More on the region and the label *)

Section RoiMore.

(** X15. When faces are found, the region is the rectangle of the first
    one (the others are not looked at): for a rectangle inside the
    image it has the height and width of the rectangle, and its pixel
    [(i, j)] is the pixel [(y + i, x + j)] of the image. *)
Theorem first_face_is_cropped (gray : GrayImage) (h w : nat)
        (face : Rect) (others : list Rect) :
  shape gray = (h, w) ->
  Forall (fun row => List.length row = w) gray ->
  rect_y face + rect_h face <= h ->
  rect_x face + rect_w face <= w ->
  let roi := extract_roi gray (face :: others) in
  List.length roi = rect_h face
  /\ Forall (fun row => List.length row = rect_w face) roi
  /\ forall i j, i < rect_h face -> j < rect_w face ->
                 pixel roi i j = pixel gray (rect_y face + i) (rect_x face + j).
Proof.
  intros Hshape Hrows Hy Hx roi.
  assert (Hh : List.length gray = h) by (unfold shape in Hshape; congruence).
  unfold roi, extract_roi.
  split; [|split].
  - rewrite crop_rows by lia. lia.
  - pose proof (crop_columns gray w (rect_y face) (rect_y face + rect_h face)
                             (rect_x face) (rect_x face + rect_w face) Hrows Hx) as Hc.
    replace (rect_x face + rect_w face - rect_x face) with (rect_w face) in Hc by lia.
    exact Hc.
  - intros i j Hi Hj. apply crop_pixel; lia.
Qed.

Lemma first_face_is_cropped_witness :
  let roi := extract_roi ServiceFixtures.wide_image [mkRect 10 20 30 40; mkRect 0 0 5 5] in
  List.length roi = 40
  /\ Forall (fun row => List.length row = 30) roi
  /\ forall i j, i < 40 -> j < 30 ->
                 pixel roi i j = pixel ServiceFixtures.wide_image (20 + i) (10 + j).
Proof.
  apply (first_face_is_cropped ServiceFixtures.wide_image 100 200
                               (mkRect 10 20 30 40) [mkRect 0 0 5 5]).
  - reflexivity.
  - exact wide_image_rows.
  - cbn. lia.
  - cbn. lia.
Defined.

(** X16. The default of [_EMOTION_DICT.get(maxindex, "Calm")] is never
    used for a prediction of four values: the label does not depend on
    it. *)
Theorem label_default_is_unused (p : Prediction) (d1 d2 : string) :
  dict_get _EMOTION_DICT (argmax (flatten p)) d1
  = dict_get _EMOTION_DICT (argmax (flatten p)) d2.
Proof.
  assert (Hne : flatten p <> []) by discriminate.
  pose proof (argmax_lt_length _ Hne) as Hlt. cbn [flatten List.length] in Hlt.
  destruct (argmax (flatten p)) as [|[|[|[|n]]]]; try reflexivity. lia.
Qed.

End RoiMore.

(** ** More on the handlers *)

Section HandlerFacts.

Variable libs : Libs.
Variable path : string.
Variable df : DataFrame.

Lemma recommend_default_limit (rs : RandomSource) (mood : string) :
  exists songs,
    recommend_songs_for_mood df rs mood default_limit = Ok songs
    /\ List.length songs <= 10.
Proof.
  assert (Hl : (0 <= default_limit)%Z) by (unfold default_limit; lia).
  pose proof (chosen_rows_spec df rs mood default_limit Hl) as Hc. cbv zeta in Hc.
  unfold recommend_songs_for_mood.
  destruct (Z.gtb_spec (Z.of_nat (List.length (candidates df mood))) default_limit)
    as [Hgt|Hle].
  - destruct Hc as (positions & -> & Hn & _ & Hr). cbn [bind].
    eexists. split; [reflexivity|].
    pose proof (build_songs_le (take positions (candidates df mood))) as Hb.
    rewrite (take_length _ _ Hr), Hn in Hb. exact Hb.
  - rewrite Hc. cbn [bind]. eexists. split; [reflexivity|].
    pose proof (build_songs_le (candidates df mood)) as Hb.
    unfold default_limit in Hle. lia.
Qed.

Lemma predict_mood_ok_label (artifact : option (Sequential libs))
      (image_bytes : list Byte.byte) (st st' : Process libs) (mood : string) :
  predict_mood_from_image_bytes libs path artifact image_bytes st = (Ok mood, st') ->
  exists l, mood = label_name l.
Proof.
  unfold predict_mood_from_image_bytes.
  destruct (is_empty_bytes image_bytes); [discriminate|].
  destruct (imdecode libs image_bytes) as [frame|]; [|discriminate].
  destruct (resize libs _) as [roi|e]; [|discriminate].
  destruct (_get_model libs path artifact st) as [[model|e] st'']; [|discriminate].
  destruct (predict libs model roi) as [prediction|e]; [|discriminate].
  intros [= <- _].
  assert (Hne : flatten prediction <> []) by discriminate.
  pose proof (argmax_lt_length _ Hne) as Hlt.
  destruct (List.nth_error labels (argmax (flatten prediction))) as [l|] eqn:El.
  - exists l. now apply emotion_dict_get.
  - apply List.nth_error_None in El. cbn in El, Hlt. lia.
Qed.

(** X17. [detect_mood] answers in one of three ways and only appends to
    the collection: an empty upload gives status 400 and changes
    nothing; a failed analysis gives status 500 and stores nothing; a
    success stores the event at the end of the collection and returns
    its position.  No exception of the recommendation step escapes. *)
Theorem detect_mood_outcome
        (artifact : option (Sequential libs)) (rs : RandomSource) (now : Z)
        (userId : string) (data : list Byte.byte) (srv : Server libs) :
  match detect_mood libs path df artifact rs now userId data srv with
  | (HTTPException code detail, srv') =>
      mood_events libs srv' = mood_events libs srv
      /\ ((code = 400 /\ is_empty_bytes data = true /\ srv' = srv)
          \/ (code = 500 /\ is_empty_bytes data = false))
  | (Created inserted_id doc, srv') =>
      is_empty_bytes data = false
      /\ inserted_id = List.length (mood_events libs srv)
      /\ mood_events libs srv' = (mood_events libs srv ++ [doc])%list
  | (Unhandled _, _) => False
  end.
Proof.
  unfold detect_mood.
  destruct (is_empty_bytes data) eqn:He.
  { split; [reflexivity|]. left. auto. }
  destruct (predict_mood_from_image_bytes libs path artifact data (process libs srv))
    as [[mood|exc] st].
  - destruct (recommend_default_limit rs mood) as (songs & -> & _).
    cbn [mood_events]. auto.
  - cbn [mood_events]. split; [reflexivity|]. right. auto.
Qed.

(** X18. The event of a successful [detect_mood] carries the user and
    the time of the request, a mood that is one of the four labels, at
    most ten songs, each with a name and a link that starts with
    [http://] or [https://]; the body of the answer is this event
    serialized. *)
Theorem created_event_contents
        (artifact : option (Sequential libs)) (rs : RandomSource) (now : Z)
        (userId : string) (data : list Byte.byte) (srv : Server libs)
        (inserted_id : nat) (doc : MoodDoc) :
  fst (detect_mood libs path df artifact rs now userId data srv)
  = Created inserted_id doc ->
  doc_userId doc = userId
  /\ doc_created_at doc = now
  /\ (exists l, doc_mood doc = label_name l)
  /\ List.length (doc_songs doc) <= 10
  /\ (forall song, In song (doc_songs doc) ->
                   song_name song <> ""
                   /\ exists uri, song_uri song = Some uri /\ is_http uri = true)
  /\ response_body (fst (detect_mood libs path df artifact rs now userId data srv))
     = Some (mkMoodEventPublic inserted_id userId (doc_mood doc) now
                               (List.map to_public (doc_songs doc))).
Proof.
  intros H. rewrite H. cbn [response_body]. revert H.
  unfold detect_mood.
  destruct (is_empty_bytes data); [discriminate|].
  destruct (predict_mood_from_image_bytes libs path artifact data (process libs srv))
    as [[mood|exc] st] eqn:Hp; [|discriminate].
  destruct (recommend_default_limit rs mood) as (songs & Hr & Hlen).
  rewrite Hr. cbn [fst]. intros [= _ <-]. cbn.
  split; [reflexivity|]. split; [reflexivity|].
  split; [eapply predict_mood_ok_label; eauto|].
  split; [exact Hlen|].
  split; [|reflexivity].
  intros song Hin.
  destruct (recommend_song_from_row _ _ _ _ _ _ Hr Hin) as (rows & row & _ & _ & _ & Hs).
  destruct (song_of_row_name row song Hs) as (_ & Hne & Huri).
  split; [exact Hne|].
  pose proof (resolve_uri_is_http row (display_name row)) as Hhttp.
  exists (resolve_uri row (display_name row)). split; [|exact Hhttp].
  rewrite Huri. unfold or_None. now rewrite (is_http_not_empty _ Hhttp).
Qed.

End HandlerFacts.

Section HandlerExamples.

Import Fixtures ServiceFixtures.

Lemma created_event_contents_witness :
  doc_userId (mkMoodDoc "u1" "Sad" 5 [mkSong "4" "Rain" (Some "pop")
                (Some "https://open.spotify.com/track/ABC123")]) = "u1"
  /\ doc_created_at (mkMoodDoc "u1" "Sad" 5 [mkSong "4" "Rain" (Some "pop")
                (Some "https://open.spotify.com/track/ABC123")]) = 5%Z
  /\ (exists l, "Sad" = label_name l).
Proof.
  pose proof (created_event_contents stub_libs weights_path [gloomy; sunny] (Some tt)
                first_positions 5%Z "u1" one_byte fresh_server 0
                (mkMoodDoc "u1" "Sad" 5 [mkSong "4" "Rain" (Some "pop")
                   (Some "https://open.spotify.com/track/ABC123")])
                eq_refl) as (H1 & H2 & H3 & _).
  split; [exact H1|]. split; [exact H2|exact H3].
Defined.

End HandlerExamples.

(** ** The mood history *)

Section HistoryFacts.

Variable libs : Libs.

Lemma in_combine_seq (docs : list MoodDoc) :
  forall (k i : nat) (doc : MoodDoc),
    In (i, doc) (List.combine (List.seq k (List.length docs)) docs)
    <-> k <= i /\ List.nth_error docs (i - k) = Some doc.
Proof.
  induction docs as [|d docs IH]; intros k i doc; cbn [List.length List.seq List.combine].
  - split; [contradiction|]. intros [_ H]. now destruct (i - k).
  - cbn [In]. rewrite IH. split.
    + intros [[= <- <-]|[Hk Hn]].
      * split; [lia|]. now rewrite Nat.sub_diag.
      * split; [lia|]. replace (i - k) with (S (i - S k)) by lia. exact Hn.
    + intros [Hk Hn]. destruct (i - k) as [|n] eqn:E.
      * left. cbn in Hn. injection Hn as <-. f_equal. lia.
      * right. split; [lia|]. cbn in Hn. replace (i - S k) with n by lia. exact Hn.
Qed.

Lemma in_indexed (docs : list MoodDoc) (i : nat) (doc : MoodDoc) :
  In (i, doc) (indexed docs) <-> List.nth_error docs i = Some doc.
Proof.
  unfold indexed. rewrite in_combine_seq, Nat.sub_0_r. split; [tauto|]. split; [lia|auto].
Qed.

Lemma fst_combine_seq (docs : list MoodDoc) :
  forall k, List.map fst (List.combine (List.seq k (List.length docs)) docs)
            = List.seq k (List.length docs).
Proof.
  induction docs as [|d docs IH]; intros k; [reflexivity|].
  cbn. now rewrite IH.
Qed.

Lemma NoDup_map_filter {A B : Type} (f : A -> B) (p : A -> bool) (l : list A) :
  NoDup (List.map f l) -> NoDup (List.map f (List.filter p l)).
Proof.
  induction l as [|a l IH]; [auto|]. cbn [List.map List.filter].
  intros H. inversion H as [|x xs Hnot Hrest]; subst.
  destruct (p a); [|auto]. cbn [List.map]. constructor; [|auto].
  intros Hin. apply Hnot. apply List.in_map_iff in Hin as (y & Hy & Hin).
  apply List.in_map_iff. exists y. split; [exact Hy|].
  now apply List.filter_In in Hin.
Qed.

Lemma in_find (userId : string) (cutoff : option Z) (docs : list MoodDoc)
      (i : nat) (doc : MoodDoc) :
  In (i, doc) (find userId cutoff docs)
  <-> List.nth_error docs i = Some doc
      /\ doc_userId doc = userId
      /\ forall c, cutoff = Some c -> (c <= doc_created_at doc)%Z.
Proof.
  unfold find, matches. rewrite List.filter_In, in_indexed. cbn [snd].
  rewrite andb_true_iff, String.eqb_eq.
  destruct cutoff as [c|].
  - rewrite Z.leb_le. split.
    + intros (H1 & H2 & H3). repeat split; auto. now intros c' [= <-].
    + intros (H1 & H2 & H3). auto.
  - split.
    + intros (H1 & H2 & _). repeat split; auto. discriminate.
    + intros (H1 & H2 & _). auto.
Qed.

Lemma NoDup_find_ids (userId : string) (cutoff : option Z) (docs : list MoodDoc) :
  NoDup (List.map fst (find userId cutoff docs)).
Proof.
  unfold find. apply NoDup_map_filter. unfold indexed.
  rewrite fst_combine_seq. apply List.seq_NoDup.
Qed.

(** What the history holds for a cutoff: the serialized documents the
    database returns for the query. *)
Definition history_for (mongo : Mongo) (userId : string) (cutoff : option Z)
           (srv : Server libs) : list MoodEventPublic :=
  List.map (fun d => _serialize_mood_event (fst d) (snd d))
           (sort_desc mongo (find userId cutoff (mood_events libs srv))).

(** The cutoff of a request: [days] days before [now]. *)
Definition cutoff_of (now : Z) (days : option Z) : option Z :=
  option_map (fun d => (now - timedelta_days d)%Z) days.

Lemma list_mood_history_events (mongo : Mongo) (now : Z) (userId : string)
      (days : option Z) (srv : Server libs) (events : list MoodEventPublic) :
  list_mood_history libs mongo now userId days srv = History events ->
  events = history_for mongo userId (cutoff_of now days) srv
  /\ forall d, days = Some d -> (1 <= d <= 365)%Z.
Proof.
  unfold list_mood_history, history_for, cutoff_of.
  destruct days as [d|]; cbn [option_map].
  - destruct (Z.ltb_spec d 1); [discriminate|].
    destruct (Z.ltb_spec 365 d); [discriminate|]. cbn [orb].
    intros [= <-]. split; [reflexivity|]. intros d' [= <-]. lia.
  - intros [= <-]. split; [reflexivity|discriminate].
Qed.

Lemma in_history_for (mongo : Mongo) (userId : string) (cutoff : option Z)
      (srv : Server libs) (ev : MoodEventPublic) :
  In ev (history_for mongo userId cutoff srv)
  <-> exists doc,
      List.nth_error (mood_events libs srv) (event_id ev) = Some doc
      /\ ev = _serialize_mood_event (event_id ev) doc
      /\ doc_userId doc = userId
      /\ forall c, cutoff = Some c -> (c <= doc_created_at doc)%Z.
Proof.
  unfold history_for. rewrite List.in_map_iff. split.
  - intros ([i doc] & <- & Hin).
    apply (Permutation_in _ (Permutation_sym (sort_desc_perm mongo _))) in Hin.
    apply in_find in Hin as (H1 & H2 & H3).
    exists doc. cbn. auto.
  - intros (doc & H1 & H2 & H3 & H4).
    exists (event_id ev, doc). split; [now rewrite H2|].
    apply (Permutation_in _ (sort_desc_perm mongo _)).
    apply in_find. auto.
Qed.

(** X19. Every event that [list_mood_history] returns is a stored
    document of the requested user, serialized under its own id, and
    not older than [days] days when [days] is given; the events come
    most recent first. *)
Theorem history_is_sound (mongo : Mongo) (now : Z) (userId : string)
        (days : option Z) (srv : Server libs) (events : list MoodEventPublic) :
  list_mood_history libs mongo now userId days srv = History events ->
  (forall ev, In ev events ->
              event_userId ev = userId
              /\ (forall d, days = Some d ->
                            (now - timedelta_days d <= event_created_at ev)%Z)
              /\ exists doc,
                  List.nth_error (mood_events libs srv) (event_id ev) = Some doc
                  /\ ev = _serialize_mood_event (event_id ev) doc)
  /\ StronglySorted (fun a b => (event_created_at b <= event_created_at a)%Z) events.
Proof.
  intros H. apply list_mood_history_events in H as [-> _]. split.
  - intros ev Hin. apply in_history_for in Hin as (doc & H1 & H2 & H3 & H4).
    split; [now rewrite H2|]. split.
    + intros d ->. rewrite H2. cbn. now apply H4.
    + now exists doc.
  - unfold history_for.
    pose proof (sort_desc_sorted mongo
                  (find userId (cutoff_of now days) (mood_events libs srv))) as Hs.
    induction Hs as [|a l _ IH Hall]; cbn [List.map]; constructor; [exact IH|].
    apply List.Forall_map. exact Hall.
Qed.

(** X20. [list_mood_history] leaves nothing out and repeats nothing:
    every stored document of the user that is not older than [days]
    days (any document of the user when [days] is not given) is among
    the events, and no id occurs twice. *)
Theorem history_is_complete (mongo : Mongo) (now : Z) (userId : string)
        (days : option Z) (srv : Server libs) (events : list MoodEventPublic) :
  list_mood_history libs mongo now userId days srv = History events ->
  (forall i doc,
      List.nth_error (mood_events libs srv) i = Some doc ->
      doc_userId doc = userId ->
      (forall d, days = Some d -> (now - timedelta_days d <= doc_created_at doc)%Z) ->
      In (_serialize_mood_event i doc) events)
  /\ NoDup (List.map event_id events).
Proof.
  intros H. apply list_mood_history_events in H as [-> _]. split.
  - intros i doc H1 H2 H3. apply in_history_for. exists doc. cbn [event_id _serialize_mood_event].
    repeat split; auto.
    intros c Hc. destruct days as [d|]; [|discriminate].
    cbn in Hc. injection Hc as <-. now apply H3.
  - unfold history_for. rewrite List.map_map. cbn [event_id _serialize_mood_event].
    apply (Permutation_NoDup (Permutation_map fst (sort_desc_perm mongo _))).
    apply NoDup_find_ids.
Qed.


Lemma combine_seq_snoc (docs : list MoodDoc) (doc : MoodDoc) :
  forall k,
    List.combine (List.seq k (List.length (docs ++ [doc])%list)) (docs ++ [doc])%list
    = (List.combine (List.seq k (List.length docs)) docs
       ++ [(k + List.length docs, doc)])%list.
Proof.
  induction docs as [|d docs IH]; intros k.
  - cbn. now rewrite Nat.add_0_r.
  - cbn [List.app List.length List.seq List.combine]. rewrite IH.
    cbn [List.app]. replace (S k + List.length docs) with (k + S (List.length docs)) by lia.
    reflexivity.
Qed.

Lemma find_other_user (userId other : string) (cutoff : option Z)
      (docs : list MoodDoc) (doc : MoodDoc) :
  doc_userId doc = userId -> other <> userId ->
  find other cutoff (docs ++ [doc])%list = find other cutoff docs.
Proof.
  intros Hu Hne. unfold find, indexed.
  rewrite combine_seq_snoc, List.filter_app. cbn [List.filter snd].
  unfold matches at 2. rewrite Hu.
  destruct (String.eqb_spec userId other) as [E|_]; [congruence|].
  cbn [andb]. apply List.app_nil_r.
Qed.

End HistoryFacts.

Section HistoryRoundTrip.

Variable libs : Libs.
Variable path : string.
Variable df : DataFrame.


(** X22. What [detect_mood] does for one user, whatever its outcome,
    changes nothing in the history of another user. *)
Theorem detect_mood_keeps_other_histories
        (artifact : option (Sequential libs)) (rs : RandomSource) (now : Z)
        (userId : string) (data : list Byte.byte) (srv : Server libs)
        (mongo : Mongo) (later : Z) (other : string) (days : option Z) :
  other <> userId ->
  list_mood_history libs mongo later other days
                    (snd (detect_mood libs path df artifact rs now userId data srv))
  = list_mood_history libs mongo later other days srv.
Proof.
  intros Hne.
  assert (Hev : mood_events libs
                  (snd (detect_mood libs path df artifact rs now userId data srv))
                = mood_events libs srv
                \/ exists doc,
                    doc_userId doc = userId
                    /\ mood_events libs
                         (snd (detect_mood libs path df artifact rs now userId data srv))
                       = (mood_events libs srv ++ [doc])%list).
  { unfold detect_mood.
    destruct (is_empty_bytes data); [now left|].
    destruct (predict_mood_from_image_bytes libs path artifact data (process libs srv))
      as [[mood|exc] st]; [|now left].
    destruct (recommend_default_limit df rs mood) as (songs & -> & _).
    right. eexists. split; [|reflexivity]. reflexivity. }
  unfold list_mood_history.
  destruct Hev as [->|(doc & Hu & ->)]; [reflexivity|].
  destruct days as [d|].
  - now rewrite (find_other_user userId other _ _ doc Hu Hne).
  - now rewrite (find_other_user userId other _ _ doc Hu Hne).
Qed.

End HistoryRoundTrip.

Section HistoryExamples.

Import Fixtures ServiceFixtures HistoryFixtures.

Definition rain_song : Song :=
  mkSong "4" "Rain" (Some "pop") (Some "https://open.spotify.com/track/ABC123").

(** Three stored events: two of [u1], one of [u2]. *)
Definition busy_server : Server stub_libs :=
  mkServer stub_libs (fresh_process stub_libs)
           [mkMoodDoc "u1" "Sad" 1000 [rain_song];
            mkMoodDoc "u2" "Happy" 2000 [sunny_song];
            mkMoodDoc "u1" "Calm" 90000000 []].

Example history_of_u1 :
  list_mood_history stub_libs merge_sort_db 90000500 "u1" (Some 1%Z) busy_server
  = History [mkMoodEventPublic 2 "u1" "Calm" 90000000 []]
  /\ list_mood_history stub_libs merge_sort_db 90000500 "u1" None busy_server
     = History [mkMoodEventPublic 2 "u1" "Calm" 90000000 [];
                mkMoodEventPublic 0 "u1" "Sad" 1000 [to_public rain_song]]
  /\ list_mood_history stub_libs merge_sort_db 90000500 "u1" (Some 0%Z) busy_server
     = Unprocessable.
Proof. vm_compute. repeat split; reflexivity. Qed.

Lemma history_is_sound_witness :
  (forall ev,
      In ev [mkMoodEventPublic 2 "u1" "Calm" 90000000 []] ->
      event_userId ev = "u1"
      /\ (forall d, Some 1%Z = Some d ->
                    (90000500 - timedelta_days d <= event_created_at ev)%Z)
      /\ exists doc,
          List.nth_error (mood_events stub_libs busy_server) (event_id ev) = Some doc
          /\ ev = _serialize_mood_event (event_id ev) doc)
  /\ StronglySorted (fun a b => (event_created_at b <= event_created_at a)%Z)
                    [mkMoodEventPublic 2 "u1" "Calm" 90000000 []].
Proof.
  apply (history_is_sound stub_libs merge_sort_db 90000500%Z "u1" (Some 1%Z) busy_server).
  vm_compute. reflexivity.
Defined.

Lemma history_is_complete_witness :
  (forall i doc,
      List.nth_error (mood_events stub_libs busy_server) i = Some doc ->
      doc_userId doc = "u1" ->
      (forall d, @None Z = Some d -> (90000500 - timedelta_days d <= doc_created_at doc)%Z) ->
      In (_serialize_mood_event i doc)
         [mkMoodEventPublic 2 "u1" "Calm" 90000000 [];
          mkMoodEventPublic 0 "u1" "Sad" 1000 [to_public rain_song]])
  /\ NoDup (List.map event_id
                     [mkMoodEventPublic 2 "u1" "Calm" 90000000 [];
                      mkMoodEventPublic 0 "u1" "Sad" 1000 [to_public rain_song]]).
Proof.
  apply (history_is_complete stub_libs merge_sort_db 90000500%Z "u1" None busy_server).
  vm_compute. reflexivity.
Defined.


Lemma detect_mood_keeps_other_histories_witness :
  list_mood_history stub_libs merge_sort_db 100 "u2" None
    (snd (detect_mood stub_libs weights_path [gloomy; sunny] (Some tt) first_positions
                      5 "u1" one_byte busy_server))
  = list_mood_history stub_libs merge_sort_db 100 "u2" None busy_server.
Proof.
  apply (detect_mood_keeps_other_histories stub_libs weights_path [gloomy; sunny] (Some tt)
           first_positions 5%Z "u1" one_byte busy_server merge_sort_db 100%Z "u2" None).
  discriminate.
Defined.

End HistoryExamples.
